(** * Gr0G BLE attribute bridge: a shallow embedding of [app.py]

    The GATT characteristics of [app.py] are modelled as functions in a small
    state-and-exception monad.  The state holds the characteristic object
    ([self]) and a trace of everything the handler does to the outside world
    (log records, HTTP requests, D-Bus calls on the backend object).  The
    backend is a record of responses, so a handler can be run against a
    backend that answers or against one that raises. *)

From Stdlib Require Import ZArith List String Ascii Bool Lia QArith.
From Stdlib Require Import Qpower.
From stdpp Require Import base option list gmap strings.
Import ListNotations.

Open Scope Z_scope.

(** ** Python values *)

(** A Python [str] is its sequence of code points. *)
Definition pystr := list Z.

(** The code points of an ASCII literal of the source. *)
Definition str (s : string) : pystr :=
  map (fun a => Z.of_N (N_of_ascii a)) (list_ascii_of_string s).

(** [FanControlCharacteristic.State]: a plain [Enum], its members are not
    [str] instances. *)
Inductive State := on | off | unknown.

Definition State_value (m : State) : pystr :=
  match m with
  | on => str "ON"
  | off => str "OFF"
  | unknown => str "UNKNOWN"
  end.

(** The Python objects that reach the handlers.  A [float] is a C double and
    is carried as its IEEE-754 binary64 bit pattern, a 64-bit integer. *)
Inductive pyval :=
| PStr (s : pystr)
| PInt (n : Z)
| PFloat (bits : Z)
| PBool (b : bool)
| PNone
| PMember (m : State).

(** A [dict] literal with constant keys, in source order. *)
Definition pydict := list (string * pyval).

(** Exceptions: the five D-Bus faults declared in the source, the builtin
    exceptions the handlers can raise, and whatever a backend call raises. *)
Inductive exn :=
| InvalidArgsException
| NotSupportedException
| NotPermittedException
| InvalidValueLengthException
| FailedException
| NameError
| AttributeError
| TypeError
| ValueError
| KeyError
| OverflowError
| UnicodeDecodeError
| UnicodeEncodeError
| struct_error
| BackendError (name : string).

Inductive outcome (A : Type) :=
| Returns (a : A)
| Raises (e : exn).
Arguments Returns {A} a.
Arguments Raises {A} e.

(** ** Bytes, [struct] and IEEE-754 doubles *)

Definition between (lo hi b : Z) : bool := (lo <=? b) && (b <=? hi).

Definition is_byte (b : Z) : bool := between 0 255 b.

(** [bytes(value)] on a sequence of integers. *)
Definition py_bytes (value : list Z) : outcome (list Z) :=
  if forallb is_byte value then Returns value else Raises ValueError.

(** [sys.byteorder] *)
Inductive byteorder := little | big.

Fixpoint le_to_int (bs : list Z) : Z :=
  match bs with
  | [] => 0
  | b :: r => b + 256 * le_to_int r
  end.

Fixpoint int_to_le (n : nat) (x : Z) : list Z :=
  match n with
  | O => []
  | S n' => x mod 256 :: int_to_le n' (x / 256)
  end.

Definition native_to_int (bo : byteorder) (bs : list Z) : Z :=
  le_to_int (match bo with little => bs | big => rev bs end).

Definition int_to_native (bo : byteorder) (n : nat) (x : Z) : list Z :=
  match bo with
  | little => int_to_le n x
  | big => rev (int_to_le n x)
  end.

(** [struct.pack("d", f)]: the eight bytes of the double, native order. *)
Definition struct_pack_d (bo : byteorder) (f : Z) : list Z :=
  int_to_native bo 8 f.

(** [struct.unpack("d", cmd)[0]] *)
Definition struct_unpack_d (bo : byteorder) (cmd : list Z) : outcome Z :=
  if Nat.eqb (length cmd) 8 then Returns (native_to_int bo cmd)
  else Raises struct_error.

(** [struct.unpack("i", cmd)[0]]: a signed 32-bit integer, native order. *)
Definition struct_unpack_i (bo : byteorder) (cmd : list Z) : outcome Z :=
  if Nat.eqb (length cmd) 4 then
    let u := native_to_int bo cmd in
    Returns (if u <? 2 ^ 31 then u else u - 2 ^ 32)
  else Raises struct_error.

(** A double is well formed when its bit pattern fits 64 bits. *)
Definition is_double (f : Z) : Prop := 0 <= f < 2 ^ 64.

Definition double_sign (f : Z) : bool := Z.testbit f 63.
Definition double_exponent (f : Z) : Z := Z.land (Z.shiftr f 52) 0x7ff.
Definition double_fraction (f : Z) : Z := Z.land f (2 ^ 52 - 1).

(** The number a bit pattern denotes. *)
Inductive double_class :=
| Finite (q : Q)
| Infinite (negative : bool)
| NaN.

Definition double_value (f : Z) : double_class :=
  let s := double_sign f in
  let e := double_exponent f in
  let m := double_fraction f in
  if e =? 0x7ff then (if m =? 0 then Infinite s else NaN)
  else
    let q := if e =? 0 then Qmult (inject_Z m) (Qpower (2 # 1) (-1074))
             else Qmult (inject_Z (2 ^ 52 + m)) (Qpower (2 # 1) (e - 1075)) in
    Finite (Qred (if s then Qopp q else q)).

(** [float(n)] for a Python [int]: round to nearest, ties to even. *)
Definition float_of_int (n : Z) : outcome Z :=
  let a := Z.abs n in
  if a =? 0 then Returns 0
  else
    let p := Z.log2 a in
    let '(q, p') :=
      if p <=? 52 then (Z.shiftl a (52 - p), p)
      else
        let sh := p - 52 in
        let q0 := Z.shiftr a sh in
        let r := Z.land a (2 ^ sh - 1) in
        let half := 2 ^ (sh - 1) in
        let q1 := if (half <? r) || ((r =? half) && Z.odd q0)
                  then q0 + 1 else q0 in
        if q1 =? 2 ^ 53 then (2 ^ 52, p + 1) else (q1, p) in
    if 1023 <? p' then Raises OverflowError
    else Returns ((if n <? 0 then 2 ^ 63 else 0)
                  + (p' + 1023) * 2 ^ 52 + (q - 2 ^ 52)).

(** Modelled from the spec: the value of a field of the status map that the
    backend RPC object returns.  The backend is not part of the source; the
    spec gives the fields as floating values, with an integer possible for the
    humidity setpoint. *)
Inductive dbus_value :=
| Double (bits : Z)
| Integer (n : Z).

(** [float(x)] on a field of the status map. *)
Definition py_float (x : dbus_value) : outcome Z :=
  match x with
  | Double f => Returns f
  | Integer n => float_of_int n
  end.

(** ** Text *)

(** [bytes.decode("utf-8")], strict: no overlong forms, no surrogates, nothing
    above U+10FFFF.  [None] is [UnicodeDecodeError]. *)
Definition cont (b : Z) : bool := between 0x80 0xBF b.

Definition second3 (b0 b1 : Z) : bool :=
  if b0 =? 0xE0 then between 0xA0 0xBF b1
  else if b0 =? 0xED then between 0x80 0x9F b1
  else cont b1.

Definition second4 (b0 b1 : Z) : bool :=
  if b0 =? 0xF0 then between 0x90 0xBF b1
  else if b0 =? 0xF4 then between 0x80 0x8F b1
  else cont b1.

Fixpoint utf8_decode (bs : list Z) : option pystr :=
  match bs with
  | [] => Some []
  | b0 :: r0 =>
    if between 0 0x7F b0 then cons b0 <$> utf8_decode r0
    else if between 0xC2 0xDF b0 then
      match r0 with
      | b1 :: r1 =>
        if cont b1
        then cons ((b0 - 0xC0) * 64 + (b1 - 0x80)) <$> utf8_decode r1
        else None
      | _ => None
      end
    else if between 0xE0 0xEF b0 then
      match r0 with
      | b1 :: b2 :: r2 =>
        if second3 b0 b1 && cont b2
        then cons ((b0 - 0xE0) * 4096 + (b1 - 0x80) * 64 + (b2 - 0x80))
               <$> utf8_decode r2
        else None
      | _ => None
      end
    else if between 0xF0 0xF4 b0 then
      match r0 with
      | b1 :: b2 :: b3 :: r3 =>
        if second4 b0 b1 && cont b2 && cont b3
        then cons ((b0 - 0xF0) * 262144 + (b1 - 0x80) * 4096
                   + (b2 - 0x80) * 64 + (b3 - 0x80))
               <$> utf8_decode r3
        else None
      | _ => None
      end
    else None
  end.

(** [str.encode("utf8")]: lone surrogates cannot be encoded. *)
Definition utf8_encode_char (c : Z) : option (list Z) :=
  if between 0 0x7F c then Some [c]
  else if between 0x80 0x7FF c then Some [0xC0 + c / 64; 0x80 + c mod 64]
  else if between 0xD800 0xDFFF c then None
  else if between 0x800 0xFFFF c then
    Some [0xE0 + c / 4096; 0x80 + (c / 64) mod 64; 0x80 + c mod 64]
  else if between 0x10000 0x10FFFF c then
    Some [0xF0 + c / 262144; 0x80 + (c / 4096) mod 64;
          0x80 + (c / 64) mod 64; 0x80 + c mod 64]
  else None.

Fixpoint utf8_encode (s : pystr) : option (list Z) :=
  match s with
  | [] => Some []
  | c :: r =>
    match utf8_encode_char c, utf8_encode r with
    | Some bs, Some rest => Some (bs ++ rest)
    | _, _ => None
    end
  end.

(** [bytearray(x, encoding="utf8")]: an encoding is only accepted together
    with a [str] argument. *)
Definition bytearray_utf8 (x : pyval) : outcome (list Z) :=
  match x with
  | PStr s =>
    match utf8_encode s with
    | Some bs => Returns bs
    | None => Raises UnicodeEncodeError
    end
  | _ => Raises TypeError
  end.

(** [str.lower()] on code points below 256, the only ones it is applied to:
    the Latin-1 characters built by [chr] from bytes, and the three ASCII
    members accepted by the fan handler. *)
Definition lower_char (c : Z) : Z :=
  if between 65 90 c then c + 32
  else if between 0xC0 0xDE c && negb (c =? 0xD7) then c + 32
  else c.

Definition py_lower (s : pystr) : pystr := map lower_char s.

Definition pystr_eqb (a b : pystr) : bool :=
  bool_decide (a = b).

(** [chr(n)] *)
Definition py_chr (n : Z) : outcome Z :=
  if between 0 0x10FFFF n then Returns n else Raises ValueError.

(** [int(s)] in base 10, for a string of code points below 256.  The
    interpreter first maps Unicode white space to a blank (NEL and NBSP are the
    only such characters in 127..255) and stops at any other character from 127
    on; then it reads optional white space, an optional sign, decimal digits
    with single underscores between them, and optional white space.  The
    interpreter's cap on the number of digits is out of reach of an attribute
    value, which has at most 512 bytes. *)
Definition Py_ISSPACE (c : Z) : bool := between 9 13 c || (c =? 32).

Definition Py_UNICODE_ISSPACE (c : Z) : bool := (c =? 0x85) || (c =? 0xA0).

Fixpoint transform_space (s : pystr) : pystr :=
  match s with
  | [] => []
  | c :: r =>
    if c <? 127 then c :: transform_space r
    else if Py_UNICODE_ISSPACE c then 32 :: transform_space r
    else [63]
  end.

Fixpoint skip_space (s : pystr) : pystr :=
  match s with
  | c :: r => if Py_ISSPACE c then skip_space r else s
  | [] => []
  end.

Inductive scanned := Start | Digit | Underscore.

Fixpoint scan_digits (acc : Z) (prev : scanned) (s : pystr)
  : option (Z * pystr) :=
  match s with
  | c :: r =>
    if between 48 57 c then scan_digits (10 * acc + (c - 48)) Digit r
    else if c =? 95 then
      match prev with
      | Digit => scan_digits acc Underscore r
      | _ => None
      end
    else
      match prev with
      | Digit => Some (acc, s)
      | _ => None
      end
  | [] =>
    match prev with
    | Digit => Some (acc, [])
    | _ => None
    end
  end.

Definition py_int (s : pystr) : outcome Z :=
  let t := skip_space (transform_space s) in
  let '(negative, t1) :=
    match t with
    | 43 :: r => (false, r)
    | 45 :: r => (true, r)
    | _ => (false, t)
    end in
  match scan_digits 0 Start t1 with
  | Some (n, rest) =>
    match skip_space rest with
    | [] => Returns (if negative then - n else n)
    | _ :: _ => Raises ValueError
    end
  | None => Raises ValueError
  end.

(** ** The world around a handler *)

Inductive level := DEBUG | INFO | ERROR | CRITICAL.

(** The four registration callbacks of the module. *)
Inductive callback :=
| register_app_cb
| register_app_error_cb
| register_ad_cb
| register_ad_error_cb.

(** What [main] passes as [reply_handler] or [error_handler]: a function, or a
    list holding functions. *)
Inductive handler :=
| Func (f : callback)
| ListOf (fs : list callback).

(** What the program does to the outside world.  A log record keeps its level
    and the literal part of its message. *)
Inductive event :=
| Logged (lvl : level) (msg : string)
| Printed
| HttpGet (url : string)
| HttpPost (url : string) (json : pydict)
| RpcStatus
| RpcCmd (data : pydict)
| SetPowered
| RegisterAgent (path capability : string)
| RegisterAdvertisement (reply_handler error_handler : handler)
| RegisterApplication (reply_handler error_handler : handler)
| RequestDefaultAgent (path : string)
| MainLoopRun
| MainLoopQuit
| CallbackRaised (e : exn).

(** The backend control service.  [requests_get url] stands for
    [requests.get(url)] followed by [.json()] on the response,
    [remote_status] for [gr0g_bus.get_object("com.ag.gr0g", "/gr0g")] followed
    by [.status()], and [remote_cmd data] for the same lookup followed by
    [.cmd(data)].  Each may answer or raise. *)
Record backend := Backend {
  requests_get : string -> outcome (gmap string pyval);
  requests_post : string -> pydict -> outcome unit;
  remote_status : outcome (gmap string dbus_value);
  remote_cmd : pydict -> outcome unit
}.

(** The state a handler runs in: its object and the trace so far. *)
Record store (Obj : Type) := Store { self : Obj; trace : list event }.
Arguments Store {Obj} self trace.
Arguments self {Obj} s.
Arguments trace {Obj} s.

(** A Python statement sequence: it returns or raises, and in both cases
    leaves a store behind. *)
Definition py (Obj A : Type) : Type := store Obj -> outcome A * store Obj.

#[global] Instance py_ret {Obj} : MRet (py Obj) :=
  fun A a s => (Returns a, s).

#[global] Instance py_bind {Obj} : MBind (py Obj) :=
  fun A B k c s =>
    match c s with
    | (Returns a, s') => k a s'
    | (Raises e, s') => (Raises e, s')
    end.

Definition raise {Obj A} (e : exn) : py Obj A :=
  fun s => (Raises e, s).

Definition lift {Obj A} (o : outcome A) : py Obj A :=
  fun s => (o, s).

Definition emit {Obj} (ev : event) : py Obj unit :=
  fun s => (Returns tt, Store (self s) (trace s ++ [ev])).

Definition log {Obj} (lvl : level) (msg : string) : py Obj unit :=
  emit (Logged lvl msg).

(** A call on the backend: it is recorded, then answers or raises. *)
Definition call {Obj A} (ev : event) (answer : outcome A) : py Obj A :=
  fun s => (answer, Store (self s) (trace s ++ [ev])).

Definition get_self {Obj} : py Obj Obj :=
  fun s => (Returns (self s), s).

Definition set_self {Obj} (o : Obj) : py Obj unit :=
  fun s => (Returns tt, Store o (trace s)).

(** [try: body  except Exception as e: handler e] *)
Definition try_except {Obj A} (body : py Obj A) (handler : exn -> py Obj A)
  : py Obj A :=
  fun s =>
    match body s with
    | (Returns a, s') => (Returns a, s')
    | (Raises e, s') => handler e s'
    end.

(** [except Exceptions as e:] names a class that is bound nowhere in the
    module.  The name is looked up only once the body has raised, and the
    lookup raises [NameError] in place of running the clause. *)
Definition except_Exceptions {Obj A} (clause : exn -> py Obj A)
  : exn -> py Obj A :=
  fun _ => raise NameError.

(** [status[key]] *)
Definition getitem {V} (d : gmap string V) (key : string) : outcome V :=
  match d !! key with
  | Some v => Returns v
  | None => Raises KeyError
  end.

Definition Gr0GBaseUrl : string := "com.ag.gr0g".

(** ** Characteristics *)

(** A characteristic object: [self.value]. *)
Record Characteristic := { value : list Z }.

Definition set_value (v : list Z) : py Characteristic unit :=
  set_self {| value := v |}.

Definition get_value : py Characteristic (list Z) :=
  o ← get_self; mret (value o).

Module FanControlCharacteristic.

(** [State.has_value]: [value in cls._value2member_map_] *)
Definition has_value (v : pystr) : bool :=
  existsb (pystr_eqb v) (map State_value [on; off; unknown]).

Definition init : Characteristic := {| value := [0xFF] |}.

Definition ReadValue (be : backend) : py Characteristic (list Z) :=
  log DEBUG "FAN Read: ";;
  try_except
    (res ← call (HttpGet (Gr0GBaseUrl ++ ".status"))
                (requests_get be (Gr0GBaseUrl ++ ".status"));
     fan ← lift (getitem res "fan");
     v ← lift (bytearray_utf8 fan);
     set_value v)
    (fun e =>
       log ERROR "Error getting status ";;
       v ← lift (bytearray_utf8 (PMember unknown));
       set_value v);;
  get_value.

Definition WriteValue (be : backend) (value : list Z)
  : py Characteristic unit :=
  log DEBUG "FAN Write: ";;
  raw ← lift (py_bytes value);
  cmd ← lift (match utf8_decode raw with
              | Some s => Returns s
              | None => Raises UnicodeDecodeError
              end);
  (if has_value cmd then
     log INFO "writing {cmd} to machine";;
     let data := [("cmd"%string, PStr (py_lower cmd))] in
     try_except
       (call (HttpPost (Gr0GBaseUrl ++ "/status/cmds") data)
             (requests_post be (Gr0GBaseUrl ++ "/status/cmds") data))
       (except_Exceptions
          (fun e => log ERROR "Error updating fan state: "))
   else
     log INFO "invalid state written ";;
     raise NotPermittedException);;
  set_value value.

End FanControlCharacteristic.

(** The body shared, word for word, by the [ReadValue] of the five floating
    characteristics: fetch the status, pack one field as a double, keep the old
    value when anything in the [try] raises.  Only the humidity setpoint omits
    [print(status)]. *)
Definition status_ReadValue (bo : byteorder) (msg : string) (key : string)
    (prints : bool) (be : backend) : py Characteristic (list Z) :=
  log INFO msg;;
  try_except
    (status ← call RpcStatus (remote_status be);
     (if prints then emit Printed else mret tt);;
     field ← lift (getitem status key);
     f ← lift (py_float field);
     set_value (struct_pack_d bo f))
    (fun e => log ERROR "Error getting status ");;
  get_value.

Module LightCharacteristic.
Definition init : Characteristic := {| value := [] |}.
Definition ReadValue (bo : byteorder) :=
  status_ReadValue bo "Light read: " "light" true.
End LightCharacteristic.

Module LightControlCharacteristic.

(** [self.value] and [self.lastValue]; the latter starts as the class
    attribute [lastValue = 0]. *)
Record t := { value : list Z; lastValue : Z }.

Definition init : t := {| value := [0]; lastValue := 0 |}.

Definition ReadValue (be : backend) : py t (list Z) :=
  log INFO "Light control read: ";;
  try_except
    (o ← get_self;
     set_self {| value := [lastValue o]; lastValue := lastValue o |})
    (fun e => log ERROR "Error getting status ");;
  o ← get_self;
  mret (value o).

(** [self.lastValue = ivalue] *)
Definition set_lastValue (ivalue : Z) : py t unit :=
  o ← get_self;
  set_self {| value := value o; lastValue := ivalue |}.

(** [for byteValue in value: svalue += chr(byteValue)] *)
Fixpoint join_chr (value : list Z) : outcome pystr :=
  match value with
  | [] => Returns []
  | byteValue :: rest =>
    match py_chr byteValue, join_chr rest with
    | Returns c, Returns s => Returns (c :: s)
    | Raises e, _ => Raises e
    | _, Raises e => Raises e
    end
  end.

Definition WriteValue (be : backend) (value : list Z) : py t unit :=
  log INFO "Light state Write: ";;
  svalue ← lift (join_chr value);
  log INFO "svalue: ";;
  ivalue ← lift (py_int svalue);
  (if (ivalue =? 0) || (ivalue =? 1) || (ivalue =? 2) then
     log INFO "writing {svalue} to light";;
     let data := [("cmd"%string, PStr (str "setlight"));
                  ("state"%string, PStr (py_lower svalue))] in
     try_except
       (call (RpcCmd data) (remote_cmd be data);;
        log INFO "")
       (except_Exceptions
          (fun e => log ERROR "Error updating machine state: ";; raise e))
   else
     (* the message is an f-string over [cmd], a name this method never
        binds: formatting it raises before the [raise] below is reached *)
     raise (A := unit) NameError;;
     log INFO "invalid state written ";;
     raise NotPermittedException);;
  set_lastValue ivalue.

End LightControlCharacteristic.

Module TemperatureCharacteristic.
Definition init : Characteristic := {| value := [] |}.
Definition ReadValue (bo : byteorder) :=
  status_ReadValue bo "Temperature read: " "temperature" true.
End TemperatureCharacteristic.

Module TemperatureSetpointCharacteristic.

Definition init : Characteristic := {| value := [] |}.

Definition ReadValue (bo : byteorder) :=
  status_ReadValue bo "Temperature setpoint read: " "temperature_setpoint"
                   true.

Definition WriteValue (bo : byteorder) (be : backend) (value : list Z)
  : py Characteristic unit :=
  log INFO "Temperature write: ";;
  cmd ← lift (py_bytes value);
  log INFO "writing {fvalue} to temperature_setpoint";;
  f ← lift (struct_unpack_d bo cmd);
  let data := [("cmd"%string, PStr (str "temperature_setpoint"));
               ("value"%string, PFloat f)] in
  try_except
    (call (RpcCmd data) (remote_cmd be data);;
     log INFO "")
    (except_Exceptions
       (fun e => log ERROR "Error updating machine state: ";; raise e)).

End TemperatureSetpointCharacteristic.

Module HumidityCharacteristic.
Definition init : Characteristic := {| value := [] |}.
Definition ReadValue (bo : byteorder) :=
  status_ReadValue bo "Humidity read: " "humidity" true.
End HumidityCharacteristic.

Module HumiditySetpointCharacteristic.

Definition init : Characteristic := {| value := [] |}.

Definition ReadValue (bo : byteorder) :=
  status_ReadValue bo "Humidity setpoint read: " "humidity_setpoint" false.

Definition WriteValue (bo : byteorder) (be : backend) (value : list Z)
  : py Characteristic unit :=
  log INFO "Temperature write: ";;
  cmd ← lift (py_bytes value);
  log INFO "writing {cmd} to humidity_setpoint";;
  n ← lift (struct_unpack_i bo cmd);
  let data := [("cmd"%string, PStr (str "humidity_setpoint"));
               ("value"%string, PInt n)] in
  try_except
    (call (RpcCmd data) (remote_cmd be data);;
     log INFO "")
    (except_Exceptions
       (fun e => log ERROR "Error updating machine state: ";; raise e)).

End HumiditySetpointCharacteristic.

(** ** Start-up *)

(** The module global [mainloop]: [None] until [main] builds the loop. *)
Inductive loop_state := Created | Running | Stopped.

Record globals := { mainloop : option loop_state }.

(** [mainloop.quit()] *)
Definition mainloop_quit : py globals unit :=
  g ← get_self;
  match mainloop g with
  | None => raise AttributeError
  | Some _ => emit MainLoopQuit;; set_self {| mainloop := Some Stopped |}
  end.

Definition run_callback (f : callback) : py globals unit :=
  match f with
  | register_app_cb => log INFO "GATT application registered"
  | register_app_error_cb =>
    log CRITICAL "Failed to register application: ";; mainloop_quit
  | register_ad_cb => log INFO "Advertisement registered"
  | register_ad_error_cb =>
    log CRITICAL "Failed to register advertisement: ";; mainloop_quit
  end.

(** Calling what was given as a handler: a list is not callable. *)
Definition invoke (h : handler) : py globals unit :=
  match h with
  | Func f => run_callback f
  | ListOf _ => raise TypeError
  end.

(** The two asynchronous registrations and the answers the stack can give. *)
Inductive registration := Advertisement | Application.
Inductive reply := MethodReturn | ErrorMessage.

(** The protocol stack as [main] meets it: what [find_adapter(bus)] returns and
    the answers to the asynchronous calls, in the order they arrive once the
    loop runs.  The synchronous D-Bus calls of [main] are taken to return. *)
Record bluez := Bluez {
  find_adapter : option string;
  replies : list (registration * reply)
}.

Definition AGENT_PATH : string := "/gr0g".

(** The handlers [main] hands over with each asynchronous call. *)
Definition handlers (r : registration) : handler * handler :=
  match r with
  | Advertisement => (Func register_ad_cb, Func register_ad_error_cb)
  | Application => (Func register_app_cb, ListOf [register_app_error_cb])
  end.

(** How the D-Bus binding delivers one answer: the reply handler on a method
    return, the error handler on an error; an exception escaping either is
    reported and the loop carries on. *)
Definition dispatch (r : registration) (answer : reply) : py globals unit :=
  let '(reply_handler, error_handler) := handlers r in
  try_except
    (invoke (match answer with
             | MethodReturn => reply_handler
             | ErrorMessage => error_handler
             end))
    (fun e => emit (CallbackRaised e)).

(** [mainloop.run()]: answers are delivered one by one until [quit] has been
    called; with no answer left the loop stays running. *)
Fixpoint deliver (answers : list (registration * reply)) : py globals unit :=
  match answers with
  | [] => mret tt
  | (r, answer) :: rest =>
    dispatch r answer;;
    g ← get_self;
    match mainloop g with
    | Some Stopped => mret tt
    | _ => deliver rest
    end
  end.

Definition mainloop_run (answers : list (registration * reply))
  : py globals unit :=
  emit MainLoopRun;;
  set_self {| mainloop := Some Running |};;
  deliver answers.

(** [not adapter] on what [find_adapter] returns: [None] and the empty path
    are the values Python takes as false. *)
Definition not_adapter (adapter : option string) : bool :=
  match adapter with
  | None => true
  | Some EmptyString => true
  | Some (String _ _) => false
  end.

Definition main (env : bluez) : py globals unit :=
  if not_adapter (find_adapter env) then
    log CRITICAL "GattManager1 interface not found"
  else
    emit SetPowered;;
    set_self {| mainloop := Some Created |};;
    emit (RegisterAgent AGENT_PATH "NoInputNoOutput");;
    emit (RegisterAdvertisement (fst (handlers Advertisement))
                                (snd (handlers Advertisement)));;
    log INFO "Registering GATT application...";;
    emit (RegisterApplication (fst (handlers Application))
                              (snd (handlers Application)));;
    emit (RequestDefaultAgent AGENT_PATH);;
    mainloop_run (replies env).

(** The process before [main]: no loop, nothing done yet. *)
Definition boot : store globals := Store {| mainloop := None |} [].

(** The calls [main] makes, in order, once an adapter is found. *)
Definition startup_calls : list event :=
  [SetPowered;
   RegisterAgent AGENT_PATH "NoInputNoOutput";
   RegisterAdvertisement (Func register_ad_cb) (Func register_ad_error_cb);
   Logged INFO "Registering GATT application...";
   RegisterApplication (Func register_app_cb) (ListOf [register_app_error_cb]);
   RequestDefaultAgent AGENT_PATH;
   MainLoopRun].

(** ** Vocabulary of the statements *)

Definition is_backend_call (ev : event) : bool :=
  match ev with
  | HttpGet _ | HttpPost _ _ | RpcStatus | RpcCmd _ => true
  | _ => false
  end.

(** The calls a trace makes on the backend, in order. *)
Definition backend_calls (tr : list event) : list event :=
  List.filter is_backend_call tr.

(** The position of the first event of a trace that satisfies [p]. *)
Fixpoint position (p : event -> bool) (tr : list event) : option nat :=
  match tr with
  | [] => None
  | ev :: rest => if p ev then Some O else S <$> position p rest
  end.

Definition is_RegisterAdvertisement (ev : event) : bool :=
  match ev with RegisterAdvertisement _ _ => true | _ => false end.
Definition is_RegisterApplication (ev : event) : bool :=
  match ev with RegisterApplication _ _ => true | _ => false end.
Definition is_RegisterAgent (ev : event) : bool :=
  match ev with RegisterAgent _ _ => true | _ => false end.
Definition is_RequestDefaultAgent (ev : event) : bool :=
  match ev with RequestDefaultAgent _ => true | _ => false end.
Definition is_MainLoopRun (ev : event) : bool :=
  match ev with MainLoopRun => true | _ => false end.

(** Both events occur and the first one that satisfies [p] comes before the
    first one that satisfies [q]. *)
Definition precedes (p q : event -> bool) (tr : list event) : bool :=
  match position p tr, position q tr with
  | Some i, Some j => Nat.ltb i j
  | _, _ => false
  end.

(** The start-up order in the words of the specification: advertisement
    registration, application registration, agent registration, default-agent
    request, running. *)
Definition spec_startup_order (tr : list event) : bool :=
  precedes is_RegisterAdvertisement is_RegisterApplication tr
  && precedes is_RegisterApplication is_RegisterAgent tr
  && precedes is_RegisterAgent is_RequestDefaultAgent tr
  && precedes is_RequestDefaultAgent is_MainLoopRun tr.

(** The light states a write lets through:
    [(ivalue == 0) or (ivalue == 1) or (ivalue == 2)]. *)
Definition accepted_state (n : Z) : bool :=
  (n =? 0) || (n =? 1) || (n =? 2).

(** Membership in the fan's value set without regard to case, in the words of
    the specification. *)
Definition spec_case_insensitive_member (cmd : pystr) : bool :=
  existsb (fun m => pystr_eqb (py_lower cmd) (py_lower (State_value m)))
          [on; off; unknown].

(** ** Inputs used to exercise the statements *)

(** A backend that answers every call. *)
Definition answering : backend :=
  Backend (fun _ => Returns {[ "fan"%string := PStr (str "ON") ]})
          (fun _ _ => Returns tt)
          (Returns (<[ "light"%string := Double 0x4045000000000000 ]>
                    {[ "humidity_setpoint"%string := Integer 60 ]}))
          (fun _ => Returns tt).

(** A backend out of reach: every call raises. *)
Definition unreachable : backend :=
  Backend (fun _ => Raises (BackendError "ConnectionError"))
          (fun _ _ => Raises (BackendError "ConnectionError"))
          (Raises (BackendError "DBusException"))
          (fun _ => Raises (BackendError "DBusException")).

(** The doubles 21.5 and 42.0. *)
Definition double_21_5 : Z := 0x4035800000000000.
Definition double_42 : Z := 0x4045000000000000.

Arguments str : simpl never.
Arguments FanControlCharacteristic.has_value : simpl never.
Arguments py_int : simpl never.
Arguments py_lower : simpl never.

(** ** The description descriptor *)

Module CharacteristicUserDescriptionDescriptor.

(** [self.value] and [self.writable].  [WriteValue] reads [self.writable], but
    nothing in the module sets it: whether the attribute exists, and what it
    holds, is left to the base class [Descriptor] of package [ble].  [None]
    stands for a missing attribute. *)
Record t := { value : list Z; writable : option bool }.

Definition CUD_UUID : string := "2901".

(** [array.array("B", characteristic.description).tolist()] *)
Definition init (description : string) (writable : option bool) : t :=
  {| value := str description; writable := writable |}.

Definition ReadValue : py t (list Z) :=
  o ← get_self;
  mret (value o).

(** [self.value = value], keeping the other attribute. *)
Definition set_descriptor_value (v : list Z) : py t unit :=
  o ← get_self;
  set_self {| value := v; writable := writable o |}.

Definition WriteValue (value : list Z) : py t unit :=
  o ← get_self;
  match writable o with
  | None => raise AttributeError
  | Some false => raise NotPermittedException
  | Some true => set_descriptor_value value
  end.

End CharacteristicUserDescriptionDescriptor.

(** ** Requests in sequence *)

(** The five floating characteristics, each with the field of the status it
    reads. *)
Definition float_characteristics
  : list (string * (byteorder -> backend -> py Characteristic (list Z))) :=
  [("light"%string, LightCharacteristic.ReadValue);
   ("temperature"%string, TemperatureCharacteristic.ReadValue);
   ("temperature_setpoint"%string,
    TemperatureSetpointCharacteristic.ReadValue);
   ("humidity"%string, HumidityCharacteristic.ReadValue);
   ("humidity_setpoint"%string, HumiditySetpointCharacteristic.ReadValue)].

(** A request of the protocol stack on a characteristic, with the backend as
    it stands when the request arrives.  The event loop hands requests to the
    handlers one at a time. *)
Inductive request :=
| ReadRequest (be : backend)
| WriteRequest (be : backend) (payload : list Z).

Definition serve_fan (rq : request) (s : store Characteristic)
  : store Characteristic :=
  match rq with
  | ReadRequest be => snd (FanControlCharacteristic.ReadValue be s)
  | WriteRequest be payload =>
    snd (FanControlCharacteristic.WriteValue be payload s)
  end.

Definition serve_light_control (rq : request)
    (s : store LightControlCharacteristic.t)
  : store LightControlCharacteristic.t :=
  match rq with
  | ReadRequest be => snd (LightControlCharacteristic.ReadValue be s)
  | WriteRequest be payload =>
    snd (LightControlCharacteristic.WriteValue be payload s)
  end.

Definition serve_temperature_setpoint (bo : byteorder) (rq : request)
    (s : store Characteristic) : store Characteristic :=
  match rq with
  | ReadRequest be => snd (TemperatureSetpointCharacteristic.ReadValue bo be s)
  | WriteRequest be payload =>
    snd (TemperatureSetpointCharacteristic.WriteValue bo be payload s)
  end.

Definition serve_humidity_setpoint (bo : byteorder) (rq : request)
    (s : store Characteristic) : store Characteristic :=
  match rq with
  | ReadRequest be => snd (HumiditySetpointCharacteristic.ReadValue bo be s)
  | WriteRequest be payload =>
    snd (HumiditySetpointCharacteristic.WriteValue bo be payload s)
  end.

Definition serve_all {Obj : Type}
    (serve : request -> store Obj -> store Obj)
    (rqs : list request) (s : store Obj) : store Obj :=
  fold_left (fun s rq => serve rq s) rqs s.

(** A value a floating characteristic can hold: nothing yet, or the 8 bytes
    of a double. *)
Definition empty_or_double (v : list Z) : Prop :=
  v = [] \/ (length v = 8%nat /\ forallb is_byte v = true).

(** The characters [int()] lets through: white space, a sign, an underscore
    or a decimal digit. *)
Definition int_char (c : Z) : bool :=
  Py_ISSPACE c || Py_UNICODE_ISSPACE c || (c =? 43) || (c =? 45)
  || (c =? 95) || between 48 57 c.

(** The characters of a text [int()] reads, part by part. *)
Definition int_ascii_char (c : Z) : bool :=
  Py_ISSPACE c || (c =? 43) || (c =? 45) || (c =? 95) || between 48 57 c.

(** An exception that escaped a callback. *)
Definition is_CallbackRaised (ev : event) : bool :=
  match ev with CallbackRaised _ => true | _ => false end.

(** An error answer to the application registration. *)
Definition is_application_error (a : registration * reply) : bool :=
  match a with (Application, ErrorMessage) => true | _ => false end.

Definition is_critical (ev : event) : bool :=
  match ev with Logged CRITICAL _ => true | _ => false end.

(** * Properties *)

(** ** The byte codecs *)

Lemma is_byte_spec b : is_byte b = true <-> 0 <= b < 256.
Proof. unfold is_byte, between. lia. Qed.

Lemma forallb_is_byte_rev bs :
  forallb is_byte (rev bs) = forallb is_byte bs.
Proof.
  induction bs as [|b bs IH]; simpl; [reflexivity|].
  rewrite forallb_app, IH. simpl.
  destruct (is_byte b), (forallb is_byte bs); reflexivity.
Qed.

Lemma length_int_to_le n x : length (int_to_le n x) = n.
Proof.
  revert x. induction n as [|n IH]; intros x; simpl; [reflexivity|].
  now rewrite IH.
Qed.

Lemma int_to_le_bytes n x : forallb is_byte (int_to_le n x) = true.
Proof.
  revert x. induction n as [|n IH]; intros x; simpl; [reflexivity|].
  rewrite IH, andb_true_r. apply is_byte_spec.
  pose proof (Z.mod_pos_bound x 256). lia.
Qed.

Lemma le_to_int_int_to_le n x :
  le_to_int (int_to_le n x) = x mod 256 ^ Z.of_nat n.
Proof.
  revert x. induction n as [|n IH]; intros x.
  - simpl. now rewrite Z.mod_1_r.
  - cbn [int_to_le le_to_int]. rewrite IH.
    rewrite Nat2Z.inj_succ, Z.pow_succ_r by lia.
    rewrite Z.rem_mul_r by lia. reflexivity.
Qed.

Lemma le_to_int_bounds bs :
  forallb is_byte bs = true ->
  0 <= le_to_int bs < 256 ^ Z.of_nat (length bs).
Proof.
  induction bs as [|b bs IH]; intros H.
  - simpl. lia.
  - cbn [forallb] in H. apply andb_true_iff in H as [Hb Hbs].
    apply is_byte_spec in Hb. specialize (IH Hbs).
    cbn [le_to_int length]. rewrite Nat2Z.inj_succ, Z.pow_succ_r by lia. lia.
Qed.

Lemma int_to_le_le_to_int bs :
  forallb is_byte bs = true ->
  int_to_le (length bs) (le_to_int bs) = bs.
Proof.
  induction bs as [|b bs IH]; intros H; [reflexivity|].
  cbn [forallb] in H. apply andb_true_iff in H as [Hb Hbs].
  apply is_byte_spec in Hb.
  cbn [length le_to_int int_to_le].
  replace ((b + 256 * le_to_int bs) mod 256) with b
    by (apply Z.mod_unique_pos with (q := le_to_int bs); lia).
  replace ((b + 256 * le_to_int bs) / 256) with (le_to_int bs)
    by (apply Z.div_unique_pos with (r := b); lia).
  now rewrite IH.
Qed.

Lemma length_int_to_native bo n x : length (int_to_native bo n x) = n.
Proof.
  destruct bo; simpl; [|rewrite length_rev]; apply length_int_to_le.
Qed.

Lemma int_to_native_bytes bo n x :
  forallb is_byte (int_to_native bo n x) = true.
Proof.
  destruct bo; simpl; [|rewrite forallb_is_byte_rev]; apply int_to_le_bytes.
Qed.

(** Reading back what was written gives the number modulo the width. *)
Lemma native_to_int_int_to_native bo n x :
  native_to_int bo (int_to_native bo n x) = x mod 256 ^ Z.of_nat n.
Proof.
  destruct bo; unfold native_to_int, int_to_native;
    [|rewrite rev_involutive]; apply le_to_int_int_to_le.
Qed.

(** Writing back what was read gives the same bytes. *)
Lemma int_to_native_native_to_int bo bs :
  forallb is_byte bs = true ->
  int_to_native bo (length bs) (native_to_int bo bs) = bs.
Proof.
  intros H. destruct bo; unfold native_to_int, int_to_native.
  - now apply int_to_le_le_to_int.
  - rewrite <- (length_rev bs), int_to_le_le_to_int.
    + apply rev_involutive.
    + now rewrite forallb_is_byte_rev.
Qed.

Lemma native_to_int_bounds bo bs :
  forallb is_byte bs = true ->
  0 <= native_to_int bo bs < 256 ^ Z.of_nat (length bs).
Proof.
  intros H. destruct bo; unfold native_to_int.
  - now apply le_to_int_bounds.
  - rewrite <- (length_rev bs). apply le_to_int_bounds.
    now rewrite forallb_is_byte_rev.
Qed.

Lemma py_bytes_ok value :
  forallb is_byte value = true -> py_bytes value = Returns value.
Proof. intros H. unfold py_bytes. now rewrite H. Qed.

(** C9.  Packing a double with the read-side codec and unpacking the eight
    bytes with the write-side codec gives back the very same double, bit for
    bit, whatever the byte order of the machine. *)
Theorem struct_unpack_pack_d (bo : byteorder) (f : Z) :
  is_double f ->
  struct_unpack_d bo (struct_pack_d bo f) = Returns f.
Proof.
  intros Hf. unfold struct_unpack_d, struct_pack_d.
  rewrite length_int_to_native. simpl Nat.eqb. cbv iota.
  rewrite native_to_int_int_to_native.
  f_equal. apply Z.mod_small. unfold is_double in Hf.
  change (256 ^ Z.of_nat 8) with (2 ^ 64). exact Hf.
Qed.

Lemma struct_unpack_pack_d_witness :
  is_double 0x4035800000000000 /\
  struct_unpack_d little (struct_pack_d little 0x4035800000000000)
  = Returns 0x4035800000000000.
Proof.
  assert (H : is_double 0x4035800000000000) by (unfold is_double; lia).
  split; [exact H | exact (struct_unpack_pack_d little _ H)].
Defined.

(** ** Running a handler *)

Lemma backend_calls_app tr1 tr2 :
  backend_calls (tr1 ++ tr2) = backend_calls tr1 ++ backend_calls tr2.
Proof. apply List.filter_app. Qed.

Ltac py_unfold :=
  unfold status_ReadValue, set_value, get_value, log, emit, call, lift, raise,
    get_self, set_self, try_except, except_Exceptions, mbind, mret,
    py_bind, py_ret in *.

Ltac calls_simpl :=
  cbn; rewrite ?backend_calls_app; cbn; rewrite ?app_nil_r.

(** ** The temperature setpoint *)

(** C1 (as the code has it).  A write of exactly 8 bytes to the temperature
    setpoint decodes them as the double with that native-order encoding and
    submits the command [temperature_setpoint] carrying that double; the 8
    bytes of 21.5 submit 21.5.  A payload of any other length raises
    [struct.error], not [InvalidValueLength], without a call on the backend and
    without a change of state. *)
Theorem temperature_setpoint_write
    (bo : byteorder) (be : backend) (s : store Characteristic)
    (value : list Z) :
  forallb is_byte value = true ->
  let r := TemperatureSetpointCharacteristic.WriteValue bo be value s in
  (length value = 8%nat ->
   let f := native_to_int bo value in
   is_double f /\ struct_pack_d bo f = value /\
   backend_calls (trace (snd r)) =
   backend_calls (trace s) ++
   [RpcCmd [("cmd"%string, PStr (str "temperature_setpoint"));
            ("value"%string, PFloat f)]])
  /\ (value = struct_pack_d bo double_21_5 ->
      double_value double_21_5 = Finite (43 # 2) /\
      backend_calls (trace (snd r)) =
      backend_calls (trace s) ++
      [RpcCmd [("cmd"%string, PStr (str "temperature_setpoint"));
               ("value"%string, PFloat double_21_5)]])
  /\ (length value <> 8%nat ->
      fst r = Raises struct_error /\
      backend_calls (trace (snd r)) = backend_calls (trace s) /\
      self (snd r) = self s).
Proof.
  intros Hb r.
  assert (H8 : length value = 8%nat ->
               backend_calls (trace (snd r)) =
               backend_calls (trace s) ++
               [RpcCmd [("cmd"%string, PStr (str "temperature_setpoint"));
                        ("value"%string, PFloat (native_to_int bo value))]]).
  { intros Hlen. subst r.
    unfold TemperatureSetpointCharacteristic.WriteValue. py_unfold.
    rewrite (py_bytes_ok _ Hb). cbn. unfold struct_unpack_d.
    rewrite Hlen. cbn.
    destruct (remote_cmd be _); calls_simpl; reflexivity. }
  split; [|split].
  - intros Hlen f. split; [|split].
    + pose proof (native_to_int_bounds bo value Hb) as H.
      rewrite Hlen in H. exact H.
    + unfold struct_pack_d. rewrite <- Hlen.
      now apply int_to_native_native_to_int.
    + now apply H8.
  - intros Hv. split; [reflexivity|].
    assert (Hlen : length value = 8%nat)
      by (rewrite Hv; apply length_int_to_native).
    rewrite (H8 Hlen). do 4 f_equal. rewrite Hv.
    unfold struct_pack_d. rewrite native_to_int_int_to_native. reflexivity.
  - intros Hlen. subst r.
    unfold TemperatureSetpointCharacteristic.WriteValue. py_unfold.
    rewrite (py_bytes_ok _ Hb). cbn. unfold struct_unpack_d.
    destruct (Nat.eqb_spec (length value) 8) as [E|_]; [contradiction|].
    calls_simpl. split; [reflexivity|]. split; [reflexivity|].
    destruct s; reflexivity.
Qed.

Lemma temperature_setpoint_write_witness :
  backend_calls
    (trace (snd (TemperatureSetpointCharacteristic.WriteValue
                   little answering [0; 0; 0; 0; 0; 128; 53; 64]
                   (Store TemperatureSetpointCharacteristic.init []))))
  = [RpcCmd [("cmd"%string, PStr (str "temperature_setpoint"));
             ("value"%string, PFloat double_21_5)]]
  /\ fst (TemperatureSetpointCharacteristic.WriteValue
            little answering [0; 0; 0; 0]
            (Store TemperatureSetpointCharacteristic.init []))
     = Raises struct_error.
Proof.
  split.
  - pose proof (temperature_setpoint_write little answering
                  (Store TemperatureSetpointCharacteristic.init [])
                  [0; 0; 0; 0; 0; 128; 53; 64] eq_refl) as H.
    cbv zeta in H. destruct H as (_ & H & _).
    destruct (H eq_refl) as [_ H']. exact H'.
  - pose proof (temperature_setpoint_write little answering
                  (Store TemperatureSetpointCharacteristic.init [])
                  [0; 0; 0; 0] eq_refl) as H.
    cbv zeta in H. destruct H as (_ & _ & H).
    destruct H as [H' _]; [simpl; lia | exact H'].
Defined.

(** C1, the claim as written fails: payloads of 4 and of 9 bytes do not
    signal [InvalidValueLength]. *)
Lemma temperature_setpoint_write_wrong_length :
  fst (TemperatureSetpointCharacteristic.WriteValue
         little answering [0; 0; 0; 0]
         (Store TemperatureSetpointCharacteristic.init []))
  <> Raises InvalidValueLengthException
  /\ fst (TemperatureSetpointCharacteristic.WriteValue
            little answering [0; 0; 0; 0; 0; 128; 53; 64; 0]
            (Store TemperatureSetpointCharacteristic.init []))
     <> Raises InvalidValueLengthException.
Proof. split; vm_compute; discriminate. Qed.

(** ** Reading the floating characteristics *)

(** The status call answers and holds the field: the field is packed, stored
    and returned. *)
Lemma status_ReadValue_answer bo msg key prints be s
    (status : gmap string dbus_value) x f :
  remote_status be = Returns status ->
  status !! key = Some x ->
  py_float x = Returns f ->
  fst (status_ReadValue bo msg key prints be s) = Returns (struct_pack_d bo f)
  /\ value (self (snd (status_ReadValue bo msg key prints be s)))
     = struct_pack_d bo f.
Proof.
  intros Hs Hk Hf. py_unfold. unfold getitem. cbn. rewrite Hs.
  destruct prints; cbn; rewrite Hk, Hf; cbn; split; reflexivity.
Qed.

(** The status call raises: the value held before is returned and kept; the
    caller sees no exception. *)
Lemma status_ReadValue_fallback bo msg key prints be s e :
  remote_status be = Raises e ->
  fst (status_ReadValue bo msg key prints be s) = Returns (value (self s))
  /\ self (snd (status_ReadValue bo msg key prints be s)) = self s.
Proof.
  intros Hs. py_unfold. cbn. rewrite Hs. cbn. split; reflexivity.
Qed.

(** Two reads in a row against a backend that raises both times return the
    same bytes. *)
Lemma status_ReadValue_fallback_twice bo msg key prints be1 be2 s e1 e2 :
  remote_status be1 = Raises e1 ->
  remote_status be2 = Raises e2 ->
  let r1 := status_ReadValue bo msg key prints be1 s in
  let r2 := status_ReadValue bo msg key prints be2 (snd r1) in
  fst r1 = Returns (value (self s)) /\ fst r2 = Returns (value (self s)).
Proof.
  intros H1 H2 r1 r2.
  destruct (status_ReadValue_fallback bo msg key prints be1 s e1 H1)
    as [Ha Hb].
  destruct (status_ReadValue_fallback bo msg key prints be2 (snd r1) e2 H2)
    as [Hc _].
  split; [exact Ha|]. subst r2. rewrite Hc. subst r1. now rewrite Hb.
Qed.

(** C8.  With a status call that answers [{"light": 42.0}], a read of the
    light characteristic returns the 8 bytes of the double 42.0 in the byte
    order of the machine, and keeps them as its value. *)
Theorem light_read_42 (bo : byteorder) (be : backend)
    (s : store Characteristic) (status : gmap string dbus_value) :
  remote_status be = Returns status ->
  status !! "light"%string = Some (Double double_42) ->
  let r := LightCharacteristic.ReadValue bo be s in
  double_value double_42 = Finite (42 # 1)
  /\ fst r = Returns (struct_pack_d bo double_42)
  /\ value (self (snd r)) = struct_pack_d bo double_42
  /\ struct_pack_d little double_42 = [0; 0; 0; 0; 0; 0; 0x45; 0x40]
  /\ struct_pack_d big double_42 = [0x40; 0x45; 0; 0; 0; 0; 0; 0].
Proof.
  intros Hs Hk r.
  destruct (status_ReadValue_answer bo "Light read: " "light" true be s
              status (Double double_42) double_42 Hs Hk eq_refl) as [Ha Hb].
  repeat split; solve [reflexivity | exact Ha | exact Hb].
Qed.

Lemma light_read_42_witness :
  fst (LightCharacteristic.ReadValue little answering
         (Store LightCharacteristic.init []))
  = Returns [0; 0; 0; 0; 0; 0; 0x45; 0x40].
Proof.
  pose proof (light_read_42 little answering
                (Store LightCharacteristic.init [])
                (<[ "light"%string := Double double_42 ]>
                 {[ "humidity_setpoint"%string := Integer 60 ]})
                eq_refl (lookup_insert_eq _ _ _)) as H.
  cbv zeta in H. destruct H as (_ & H & _). exact H.
Defined.

(** ** The humidity setpoint *)

(** C6.  The humidity setpoint is read as a double and written as an integer:
    a read returns, and keeps, the field [humidity_setpoint] of the status
    packed as the 8 bytes of a double, bytes that unpack to that very double;
    a write takes a 4-byte payload as a signed native integer, the one whose
    4-byte encoding is the payload, and submits the command
    [humidity_setpoint] with that integer as its value. *)
Theorem humidity_setpoint_asymmetric (bo : byteorder) (be : backend)
    (s : store Characteristic) :
  (forall (status : gmap string dbus_value) x f,
      remote_status be = Returns status ->
      status !! "humidity_setpoint"%string = Some x ->
      py_float x = Returns f ->
      let r := HumiditySetpointCharacteristic.ReadValue bo be s in
      fst r = Returns (struct_pack_d bo f)
      /\ value (self (snd r)) = struct_pack_d bo f
      /\ length (struct_pack_d bo f) = 8%nat
      /\ struct_unpack_d bo (struct_pack_d bo f) = Returns (f mod 2 ^ 64))
  /\ (forall value : list Z,
         forallb is_byte value = true ->
         length value = 4%nat ->
         let r := HumiditySetpointCharacteristic.WriteValue bo be value s in
         exists n : Z,
           - 2 ^ 31 <= n < 2 ^ 31
           /\ int_to_native bo 4 (n mod 2 ^ 32) = value
           /\ backend_calls (trace (snd r)) =
              backend_calls (trace s) ++
              [RpcCmd [("cmd"%string, PStr (str "humidity_setpoint"));
                       ("value"%string, PInt n)]]).
Proof.
  split.
  - intros status x f Hs Hk Hf r.
    destruct (status_ReadValue_answer bo "Humidity setpoint read: "
                "humidity_setpoint" false be s status x f Hs Hk Hf)
      as [Ha Hv].
    split; [exact Ha|]. split; [exact Hv|]. split.
    + apply length_int_to_native.
    + unfold struct_unpack_d, struct_pack_d. rewrite length_int_to_native.
      cbn [Nat.eqb]. now rewrite native_to_int_int_to_native.
  - intros value Hb Hlen r.
    pose proof (native_to_int_bounds bo value Hb) as Hu.
    rewrite Hlen in Hu. change (256 ^ Z.of_nat 4) with (2 ^ 32) in Hu.
    pose proof (int_to_native_native_to_int bo value Hb) as Hrt.
    rewrite Hlen in Hrt.
    set (u := native_to_int bo value) in *.
    exists (if u <? 2 ^ 31 then u else u - 2 ^ 32).
    split; [|split].
    + destruct (Z.ltb_spec u (2 ^ 31)); lia.
    + transitivity (int_to_native bo 4 u); [|exact Hrt]. f_equal.
      destruct (Z.ltb_spec u (2 ^ 31)).
      * apply Z.mod_small. lia.
      * symmetry. apply Z.mod_unique_pos with (q := -1); lia.
    + subst r. unfold HumiditySetpointCharacteristic.WriteValue. py_unfold.
      rewrite (py_bytes_ok _ Hb). cbn. unfold struct_unpack_i.
      rewrite Hlen. cbn. fold u.
      destruct (remote_cmd be _); calls_simpl; reflexivity.
Qed.

Lemma humidity_setpoint_asymmetric_witness :
  fst (HumiditySetpointCharacteristic.ReadValue little answering
         (Store HumiditySetpointCharacteristic.init []))
  = Returns [0; 0; 0; 0; 0; 0; 0x4e; 0x40]
  /\ exists n : Z,
      backend_calls
        (trace (snd (HumiditySetpointCharacteristic.WriteValue
                       little answering [60; 0; 0; 0]
                       (Store HumiditySetpointCharacteristic.init []))))
      = [RpcCmd [("cmd"%string, PStr (str "humidity_setpoint"));
                 ("value"%string, PInt n)]].
Proof.
  pose proof (humidity_setpoint_asymmetric little answering
                (Store HumiditySetpointCharacteristic.init [])) as [Hr Hw].
  split.
  - assert (Hk : (<[ "light"%string := Double double_42 ]>
                  {[ "humidity_setpoint"%string := Integer 60 ]}
                  : gmap string dbus_value)
                 !! "humidity_setpoint"%string = Some (Integer 60)).
    { rewrite lookup_insert_ne by discriminate. apply lookup_singleton_eq. }
    exact (proj1 (Hr _ (Integer 60) 0x404e000000000000 eq_refl Hk eq_refl)).
  - destruct (Hw [60; 0; 0; 0] eq_refl eq_refl) as (n & _ & _ & Hn).
    exists n. exact Hn.
Defined.

(** ** Values before the first request *)

(** C10.  Before any read or write the fan holds the single byte 0xFF, which
    is no UTF-8 text at all and so the encoding of no member of the fan's value
    set; the light control holds the single byte 0 with last accepted value 0;
    the five floating characteristics hold no byte.  A first read of a
    floating characteristic against a backend that raises therefore returns
    the empty byte string, not 8 bytes. *)
Theorem initial_values :
  value FanControlCharacteristic.init = [0xFF]
  /\ utf8_decode [0xFF] = None
  /\ (forall m : State, utf8_encode (State_value m) <> Some [0xFF])
  /\ LightControlCharacteristic.value LightControlCharacteristic.init = [0]
  /\ LightControlCharacteristic.lastValue LightControlCharacteristic.init = 0
  /\ value LightCharacteristic.init = []
  /\ value TemperatureCharacteristic.init = []
  /\ value TemperatureSetpointCharacteristic.init = []
  /\ value HumidityCharacteristic.init = []
  /\ value HumiditySetpointCharacteristic.init = []
  /\ (forall (bo : byteorder) (be : backend) (e : exn) (tr : list event),
         remote_status be = Raises e ->
         fst (LightCharacteristic.ReadValue bo be
                (Store LightCharacteristic.init tr)) = Returns []
         /\ fst (TemperatureCharacteristic.ReadValue bo be
                   (Store TemperatureCharacteristic.init tr)) = Returns []
         /\ fst (TemperatureSetpointCharacteristic.ReadValue bo be
                   (Store TemperatureSetpointCharacteristic.init tr))
            = Returns []
         /\ fst (HumidityCharacteristic.ReadValue bo be
                   (Store HumidityCharacteristic.init tr)) = Returns []
         /\ fst (HumiditySetpointCharacteristic.ReadValue bo be
                   (Store HumiditySetpointCharacteristic.init tr))
            = Returns []).
Proof.
  repeat match goal with |- _ /\ _ => split end; try reflexivity.
  - intros m. destruct m; vm_compute; discriminate.
  - intros bo be e tr He.
    repeat match goal with |- _ /\ _ => split end;
      exact (proj1 (status_ReadValue_fallback bo _ _ _ be (Store _ tr) e He)).
Qed.

Lemma initial_values_witness :
  fst (TemperatureSetpointCharacteristic.ReadValue little unreachable
         (Store TemperatureSetpointCharacteristic.init [])) = Returns [].
Proof.
  destruct initial_values as (_ & _ & _ & _ & _ & _ & _ & _ & _ & _ & H).
  destruct (H little unreachable (BackendError "DBusException") [] eq_refl)
    as (_ & _ & H' & _).
  exact H'.
Defined.

(** ** Reads against a backend that raises *)

(** C5, at the failing input.  A read of the fan against a backend whose
    status request raises does not return the bytes of ["UNKNOWN"]: the
    fallback hands the enum member, not its text, to [bytearray], which
    raises [TypeError], and the exception reaches the caller; the value is
    left as it was. *)
Theorem fan_read_backend_failure (be : backend) (s : store Characteristic)
    (e : exn) :
  requests_get be (Gr0GBaseUrl ++ ".status")%string = Raises e ->
  fst (FanControlCharacteristic.ReadValue be s) = Raises TypeError
  /\ fst (FanControlCharacteristic.ReadValue be s)
     <> Returns (State_value unknown)
  /\ self (snd (FanControlCharacteristic.ReadValue be s)) = self s.
Proof.
  intros He. unfold FanControlCharacteristic.ReadValue. py_unfold.
  cbn. rewrite He. cbn.
  split; [reflexivity|]. split; [discriminate|]. destruct s; reflexivity.
Qed.

Lemma fan_read_backend_failure_witness :
  fst (FanControlCharacteristic.ReadValue unreachable
         (Store FanControlCharacteristic.init [])) = Raises TypeError.
Proof.
  exact (proj1 (fan_read_backend_failure unreachable
                  (Store FanControlCharacteristic.init [])
                  (BackendError "ConnectionError") eq_refl)).
Defined.

(** The other readable characteristics do recover: against a backend that
    raises, each of the five floating reads returns the value held before,
    twice in a row, and raises nothing. *)
Lemma float_reads_fall_back (bo : byteorder) (be1 be2 : backend)
    (s : store Characteristic) (e1 e2 : exn) :
  remote_status be1 = Raises e1 ->
  remote_status be2 = Raises e2 ->
  (let r1 := LightCharacteristic.ReadValue bo be1 s in
   fst r1 = Returns (value (self s))
   /\ fst (LightCharacteristic.ReadValue bo be2 (snd r1))
      = Returns (value (self s)))
  /\ (let r1 := TemperatureCharacteristic.ReadValue bo be1 s in
      fst r1 = Returns (value (self s))
      /\ fst (TemperatureCharacteristic.ReadValue bo be2 (snd r1))
         = Returns (value (self s)))
  /\ (let r1 := TemperatureSetpointCharacteristic.ReadValue bo be1 s in
      fst r1 = Returns (value (self s))
      /\ fst (TemperatureSetpointCharacteristic.ReadValue bo be2 (snd r1))
         = Returns (value (self s)))
  /\ (let r1 := HumidityCharacteristic.ReadValue bo be1 s in
      fst r1 = Returns (value (self s))
      /\ fst (HumidityCharacteristic.ReadValue bo be2 (snd r1))
         = Returns (value (self s)))
  /\ (let r1 := HumiditySetpointCharacteristic.ReadValue bo be1 s in
      fst r1 = Returns (value (self s))
      /\ fst (HumiditySetpointCharacteristic.ReadValue bo be2 (snd r1))
         = Returns (value (self s))).
Proof.
  intros H1 H2.
  repeat match goal with |- _ /\ _ => split end;
    exact (status_ReadValue_fallback_twice bo _ _ _ be1 be2 s e1 e2 H1 H2).
Qed.

(** The light control reads no backend at all: its read returns the single
    byte of the last accepted value. *)
Lemma light_control_read (be : backend)
    (s : store LightControlCharacteristic.t) :
  fst (LightControlCharacteristic.ReadValue be s)
  = Returns [LightControlCharacteristic.lastValue (self s)]
  /\ backend_calls (trace (snd (LightControlCharacteristic.ReadValue be s)))
     = backend_calls (trace s).
Proof.
  unfold LightControlCharacteristic.ReadValue. py_unfold.
  calls_simpl. split; reflexivity.
Qed.

(** ** Writing the fan *)

(** A payload that decodes to text below U+0080 is that text, byte for
    code point: every longer form decodes to a code point from U+0080 on. *)
Lemma utf8_decode_ascii bs s :
  utf8_decode bs = Some s -> Forall (fun c => c < 128) s -> bs = s.
Proof.
  revert s. induction bs as [|b0 r0 IH]; intros s Hd Hs.
  - simpl in Hd. congruence.
  - cbn [utf8_decode] in Hd.
    destruct (between 0 127 b0) eqn:E1.
    { destruct (utf8_decode r0) as [s'|] eqn:E; cbn in Hd; [|discriminate].
      injection Hd as <-. inversion Hs; subst. f_equal. now apply IH. }
    exfalso.
    unfold second3, second4, cont, between in *.
    repeat match type of Hd with
           | (if ?c then _ else _) = _ =>
             destruct c eqn:?; cbv iota in Hd; try discriminate
           | match ?l with [] => _ | _ :: _ => _ end = _ =>
             destruct l; cbv iota in Hd; try discriminate
           | _ <$> ?o = _ =>
             destruct o; cbn in Hd; try discriminate
           end;
      injection Hd as <-; inversion Hs; subst;
      repeat match goal with
             | H : context [if ?c then _ else _] |- _ => destruct c eqn:?
             end;
      lia.
Qed.

Lemma has_value_spec cmd :
  FanControlCharacteristic.has_value cmd = true
  <-> exists m : State, cmd = State_value m.
Proof.
  unfold FanControlCharacteristic.has_value. rewrite existsb_exists. split.
  - intros (x & Hin & Heq). apply in_map_iff in Hin as (m & <- & _).
    exists m. unfold pystr_eqb in Heq.
    now apply bool_decide_eq_true in Heq.
  - intros (m & ->). exists (State_value m). split.
    + apply in_map. destruct m; simpl; auto.
    + unfold pystr_eqb. now apply bool_decide_eq_true.
Qed.

Lemma State_value_ascii m : Forall (fun c => c < 128) (State_value m).
Proof. destruct m; vm_compute; repeat constructor. Qed.

Lemma State_value_utf8 m :
  utf8_encode (State_value m) = Some (State_value m)
  /\ utf8_decode (State_value m) = Some (State_value m).
Proof. destruct m; split; reflexivity. Qed.

(** The payloads the fan accepts are the UTF-8 encodings of the three
    members, upper case as they are declared. *)
Lemma fan_accepts_members value cmd :
  utf8_decode value = Some cmd ->
  FanControlCharacteristic.has_value cmd = true
  <-> exists m : State, utf8_encode (State_value m) = Some value.
Proof.
  intros Hd. rewrite has_value_spec. split; intros (m & Hm); exists m.
  - subst cmd.
    rewrite (utf8_decode_ascii _ _ Hd (State_value_ascii m)).
    apply State_value_utf8.
  - rewrite (proj1 (State_value_utf8 m)) in Hm. injection Hm as <-.
    rewrite (proj2 (State_value_utf8 m)) in Hd. congruence.
Qed.

(** What a write to the fan does, case by case, for a payload of bytes that
    decodes to [cmd]. *)
Lemma run_fan_write be s value cmd :
  forallb is_byte value = true ->
  utf8_decode value = Some cmd ->
  FanControlCharacteristic.WriteValue be value s =
  if FanControlCharacteristic.has_value cmd then
    let data := [("cmd"%string, PStr (py_lower cmd))] in
    let tr := trace s ++ [Logged DEBUG "FAN Write: ";
                          Logged INFO "writing {cmd} to machine";
                          HttpPost (Gr0GBaseUrl ++ "/status/cmds") data] in
    match requests_post be (Gr0GBaseUrl ++ "/status/cmds")%string data with
    | Returns _ => (Returns tt, Store {| value := value |} tr)
    | Raises _ => (Raises NameError, Store (self s) tr)
    end
  else
    (Raises NotPermittedException,
     Store (self s) (trace s ++ [Logged DEBUG "FAN Write: ";
                                 Logged INFO "invalid state written "])).
Proof.
  intros Hb Hd. unfold FanControlCharacteristic.WriteValue. py_unfold.
  rewrite (py_bytes_ok _ Hb). cbn. rewrite Hd. cbn.
  destruct (FanControlCharacteristic.has_value cmd); cbn.
  - destruct (requests_post be _ _); cbn; rewrite <- ?app_assoc; reflexivity.
  - rewrite <- ?app_assoc. reflexivity.
Qed.

(** C3 (as the code has it).  For a payload that is UTF-8 text, the fan
    accepts exactly the encodings of ["ON"], ["OFF"] and ["UNKNOWN"], upper
    case as declared; every other text signals [NotPermitted], leaves the
    value unchanged and makes no call on the backend; an accepted text is
    posted to the backend lower-cased. *)
Theorem fan_write (be : backend) (s : store Characteristic)
    (value : list Z) (cmd : pystr) :
  forallb is_byte value = true ->
  utf8_decode value = Some cmd ->
  let r := FanControlCharacteristic.WriteValue be value s in
  (fst r = Raises NotPermittedException
   <-> ~ exists m : State, utf8_encode (State_value m) = Some value)
  /\ (fst r = Raises NotPermittedException ->
      self (snd r) = self s
      /\ backend_calls (trace (snd r)) = backend_calls (trace s))
  /\ ((exists m : State, utf8_encode (State_value m) = Some value) ->
      backend_calls (trace (snd r)) =
      backend_calls (trace s) ++
      [HttpPost (Gr0GBaseUrl ++ "/status/cmds")
                [("cmd"%string, PStr (py_lower cmd))]]
      /\ (py_lower cmd = str "on" \/ py_lower cmd = str "off"
          \/ py_lower cmd = str "unknown")).
Proof.
  intros Hb Hd r. subst r. rewrite (run_fan_write be s value cmd Hb Hd).
  pose proof (fan_accepts_members value cmd Hd) as Hacc.
  destruct (FanControlCharacteristic.has_value cmd) eqn:Hv.
  - assert (Hm : exists m : State, utf8_encode (State_value m) = Some value)
      by now apply Hacc.
    cbv zeta.
    split; [|split].
    + split.
      * destruct (requests_post be _ _); cbn; discriminate.
      * intros Hn. contradiction.
    + destruct (requests_post be _ _); cbn; discriminate.
    + intros _. split.
      * destruct (requests_post be _ _); calls_simpl; reflexivity.
      * apply has_value_spec in Hv as (m & ->).
        destruct m; [left | right; left | right; right]; reflexivity.
  - assert (Hm : ~ exists m : State, utf8_encode (State_value m) = Some value).
    { intros H. apply Hacc in H. discriminate. }
    split; [|split].
    + split; [intros _; exact Hm | reflexivity].
    + intros _. split; [reflexivity | calls_simpl; reflexivity].
    + intros H. contradiction.
Qed.

Lemma fan_write_witness :
  backend_calls
    (trace (snd (FanControlCharacteristic.WriteValue answering (str "OFF")
                   (Store FanControlCharacteristic.init []))))
  = [HttpPost (Gr0GBaseUrl ++ "/status/cmds")
              [("cmd"%string, PStr (py_lower (str "OFF")))]]
  /\ fst (FanControlCharacteristic.WriteValue answering (str "Off")
            (Store FanControlCharacteristic.init []))
     = Raises NotPermittedException.
Proof.
  split.
  - pose proof (fan_write answering (Store FanControlCharacteristic.init [])
                  (str "OFF") (str "OFF") eq_refl eq_refl) as H.
    cbv zeta in H. destruct H as (_ & _ & H).
    destruct H as [H _]; [exists off; reflexivity | exact H].
  - pose proof (fan_write answering (Store FanControlCharacteristic.init [])
                  (str "Off") (str "Off") eq_refl eq_refl) as H.
    cbv zeta in H. destruct H as (H & _). apply H.
    intros (m & Hm). destruct m; vm_compute in Hm; discriminate.
Defined.

(** C3, the claim as written fails: ["on"] is a member of the value set when
    case is disregarded, and a write of ["on"] is refused. *)
Lemma fan_write_lower_case_refused :
  spec_case_insensitive_member (str "on") = true
  /\ utf8_encode (str "on") = Some (str "on")
  /\ fst (FanControlCharacteristic.WriteValue answering (str "on")
            (Store FanControlCharacteristic.init []))
     = Raises NotPermittedException.
Proof. repeat split; vm_compute; reflexivity. Qed.

(** ** Writing the light control *)

Lemma join_chr_bytes value :
  forallb is_byte value = true ->
  LightControlCharacteristic.join_chr value = Returns value.
Proof.
  induction value as [|b value IH]; intros H; [reflexivity|].
  cbn [forallb] in H. apply andb_true_iff in H as [Hb Hv].
  cbn [LightControlCharacteristic.join_chr]. rewrite (IH Hv).
  unfold py_chr. apply is_byte_spec in Hb.
  replace (between 0 1114111 b) with true
    by (unfold between; lia).
  reflexivity.
Qed.

Lemma py_int_raises s e : py_int s = Raises e -> e = ValueError.
Proof.
  unfold py_int.
  repeat match goal with
         | |- context [match ?x with _ => _ end] => destruct x
         end; congruence.
Qed.

(** What a write to the light control does, case by case, for a payload of
    bytes. *)
Lemma run_light_control_write be s value :
  forallb is_byte value = true ->
  LightControlCharacteristic.WriteValue be value s =
  let tr := trace s ++ [Logged INFO "Light state Write: ";
                        Logged INFO "svalue: "] in
  match py_int value with
  | Raises e => (Raises e, Store (self s) tr)
  | Returns n =>
    if accepted_state n then
      let data := [("cmd"%string, PStr (str "setlight"));
                   ("state"%string, PStr (py_lower value))] in
      let tr' := tr ++ [Logged INFO "writing {svalue} to light";
                        RpcCmd data] in
      match remote_cmd be data with
      | Returns _ =>
        (Returns tt,
         Store {| LightControlCharacteristic.value :=
                    LightControlCharacteristic.value (self s);
                  LightControlCharacteristic.lastValue := n |}
               (tr' ++ [Logged INFO ""]))
      | Raises _ => (Raises NameError, Store (self s) tr')
      end
    else (Raises NameError, Store (self s) tr)
  end.
Proof.
  intros Hb. unfold LightControlCharacteristic.WriteValue,
    LightControlCharacteristic.set_lastValue, accepted_state. py_unfold.
  rewrite (join_chr_bytes _ Hb). cbn.
  destruct (py_int value) as [n|e]; cbn; [|rewrite <- ?app_assoc; reflexivity].
  destruct ((n =? 0) || (n =? 1) || (n =? 2)); cbn.
  - destruct (remote_cmd be _); cbn; rewrite <- ?app_assoc; reflexivity.
  - rewrite <- ?app_assoc; reflexivity.
Qed.

(** C2 (as the code has it).  A write of the ASCII digit ["0"], ["1"] or
    ["2"] to the light control is accepted: the command goes to the backend
    and, once the backend has taken it, the last accepted value is 0, 1 or 2;
    so it is for every payload that [int()] reads as one of these numbers.  A
    payload that [int()] reads as any other number is refused: the write
    raises, makes no call on the backend and changes nothing.  A payload
    [int()] cannot read raises [ValueError] before any call on the backend.
    Whenever the write raises, the last accepted value and the value are left
    as they were. *)
Theorem light_control_write (be : backend)
    (s : store LightControlCharacteristic.t) (value : list Z) :
  forallb is_byte value = true ->
  let r := LightControlCharacteristic.WriteValue be value s in
  let data := [("cmd"%string, PStr (str "setlight"));
               ("state"%string, PStr (py_lower value))] in
  (py_int (str "0") = Returns 0 /\ py_int (str "1") = Returns 1
   /\ py_int (str "2") = Returns 2)
  /\ (forall n : Z,
         py_int value = Returns n ->
         n = 0 \/ n = 1 \/ n = 2 ->
         backend_calls (trace (snd r))
         = backend_calls (trace s) ++ [RpcCmd data]
         /\ forall u : unit,
             remote_cmd be data = Returns u ->
             fst r = Returns tt
             /\ LightControlCharacteristic.lastValue (self (snd r)) = n
             /\ LightControlCharacteristic.value (self (snd r))
                = LightControlCharacteristic.value (self s))
  /\ (forall n : Z,
         py_int value = Returns n ->
         ~ (n = 0 \/ n = 1 \/ n = 2) ->
         (exists e : exn, fst r = Raises e)
         /\ self (snd r) = self s
         /\ backend_calls (trace (snd r)) = backend_calls (trace s))
  /\ (forall e : exn,
         py_int value = Raises e ->
         fst r = Raises ValueError
         /\ backend_calls (trace (snd r)) = backend_calls (trace s))
  /\ (forall e : exn, fst r = Raises e -> self (snd r) = self s).
Proof.
  intros Hb r data. subst r.
  rewrite (run_light_control_write be s value Hb). cbv zeta. fold data.
  split; [repeat split; reflexivity|]. split; [|split; [|split]].
  - intros n Hn Hacc. rewrite Hn.
    replace (accepted_state n) with true
      by (unfold accepted_state; destruct Hacc as [->|[->| ->]]; reflexivity).
    split.
    + destruct (remote_cmd be data); calls_simpl; reflexivity.
    + intros u Hu. rewrite Hu. cbn. repeat split.
  - intros n Hn Hout. rewrite Hn.
    replace (accepted_state n) with false
      by (unfold accepted_state; symmetry;
          apply not_true_is_false; intros H; apply Hout; lia).
    split; [eexists; reflexivity|].
    split; [reflexivity | calls_simpl; reflexivity].
  - intros e He. rewrite He. rewrite (py_int_raises _ _ He).
    split; [reflexivity | calls_simpl; reflexivity].
  - intros e. destruct (py_int value) as [n|e']; [|reflexivity].
    destruct (accepted_state n); [|reflexivity].
    destruct (remote_cmd be data); cbn; [discriminate | reflexivity].
Qed.

Lemma light_control_write_witness :
  LightControlCharacteristic.lastValue
    (self (snd (LightControlCharacteristic.WriteValue answering (str "2")
                  (Store LightControlCharacteristic.init [])))) = 2
  /\ backend_calls
       (trace (snd (LightControlCharacteristic.WriteValue answering (str "3")
                      (Store LightControlCharacteristic.init [])))) = []
  /\ fst (LightControlCharacteristic.WriteValue answering (str "x")
            (Store LightControlCharacteristic.init [])) = Raises ValueError
  /\ self (snd (LightControlCharacteristic.WriteValue unreachable (str "1")
                  (Store LightControlCharacteristic.init [])))
     = LightControlCharacteristic.init.
Proof.
  split; [|split; [|split]].
  - pose proof (light_control_write answering
                  (Store LightControlCharacteristic.init []) (str "2")
                  eq_refl) as H.
    cbv zeta in H. destruct H as (_ & H & _).
    destruct (H 2 eq_refl (or_intror (or_intror eq_refl))) as (_ & H').
    destruct (H' tt eq_refl) as (_ & H'' & _).
    exact H''.
  - pose proof (light_control_write answering
                  (Store LightControlCharacteristic.init []) (str "3")
                  eq_refl) as H.
    cbv zeta in H. destruct H as (_ & _ & H & _).
    destruct (H 3 eq_refl) as (_ & _ & H'); [lia | exact H'].
  - pose proof (light_control_write answering
                  (Store LightControlCharacteristic.init []) (str "x")
                  eq_refl) as H.
    cbv zeta in H. destruct H as (_ & _ & _ & H & _).
    exact (proj1 (H ValueError eq_refl)).
  - pose proof (light_control_write unreachable
                  (Store LightControlCharacteristic.init []) (str "1")
                  eq_refl) as H.
    cbv zeta in H. destruct H as (_ & _ & _ & _ & H).
    exact (H NameError eq_refl).
Defined.

(** C2, the claim as written fails: the payloads ["01"] and ["x"] are neither
    ["0"], ["1"] nor ["2"], yet the first is accepted and moves the last
    accepted value, and the second does not signal [NotPermitted]. *)
Lemma light_control_write_other_payloads :
  fst (LightControlCharacteristic.WriteValue answering (str "01")
         (Store LightControlCharacteristic.init []))
  <> Raises NotPermittedException
  /\ LightControlCharacteristic.lastValue
       (self (snd (LightControlCharacteristic.WriteValue answering (str "01")
                     (Store LightControlCharacteristic.init []))))
     <> LightControlCharacteristic.lastValue LightControlCharacteristic.init
  /\ fst (LightControlCharacteristic.WriteValue answering (str "x")
            (Store LightControlCharacteristic.init []))
     <> Raises NotPermittedException.
Proof. repeat split; vm_compute; discriminate. Qed.

(** The check on the number is reached for ["3"], and what reaches the
    caller there is the [NameError] of the log line, not [NotPermitted]. *)
Example light_control_write_3 :
  LightControlCharacteristic.WriteValue answering (str "3")
    (Store LightControlCharacteristic.init [])
  = (Raises NameError,
     Store LightControlCharacteristic.init
           [Logged INFO "Light state Write: "; Logged INFO "svalue: "]).
Proof. reflexivity. Qed.

(** ** Writes and the backend *)

(** C4 (as the code has it).  For a payload that passes validation: when the
    backend call of the light control or of a setpoint raises, the write
    raises to the caller an exception that is not the [Failed] fault and the
    characteristic is left as it was; when the backend call returns, the write
    of any of the four writable characteristics returns, and then the fan
    takes the payload as its value, the light control takes the number as its
    last accepted value and keeps its value, and both setpoints keep their
    value. *)
Theorem write_backend_outcome (bo : byteorder) (be : backend)
    (payload : list Z) :
  forallb is_byte payload = true ->
  (forall (s : store Characteristic) (cmd : pystr),
      utf8_decode payload = Some cmd ->
      FanControlCharacteristic.has_value cmd = true ->
      let r := FanControlCharacteristic.WriteValue be payload s in
      forall u : unit,
        requests_post be (Gr0GBaseUrl ++ "/status/cmds")%string
                      [("cmd"%string, PStr (py_lower cmd))] = Returns u ->
        fst r = Returns tt /\ value (self (snd r)) = payload)
  /\ (forall (s : store LightControlCharacteristic.t) (n : Z),
         py_int payload = Returns n ->
         accepted_state n = true ->
         let r := LightControlCharacteristic.WriteValue be payload s in
         match remote_cmd be [("cmd"%string, PStr (str "setlight"));
                              ("state"%string, PStr (py_lower payload))] with
         | Raises _ =>
           (exists e : exn, fst r = Raises e /\ e <> FailedException)
           /\ self (snd r) = self s
         | Returns _ =>
           fst r = Returns tt
           /\ LightControlCharacteristic.lastValue (self (snd r)) = n
           /\ LightControlCharacteristic.value (self (snd r))
              = LightControlCharacteristic.value (self s)
         end)
  /\ (forall s : store Characteristic,
         length payload = 8%nat ->
         let r :=
           TemperatureSetpointCharacteristic.WriteValue bo be payload s in
         match remote_cmd be
                 [("cmd"%string, PStr (str "temperature_setpoint"));
                  ("value"%string, PFloat (native_to_int bo payload))] with
         | Raises _ =>
           (exists e : exn, fst r = Raises e /\ e <> FailedException)
           /\ self (snd r) = self s
         | Returns _ => fst r = Returns tt /\ self (snd r) = self s
         end)
  /\ (forall (s : store Characteristic) (n : Z),
         struct_unpack_i bo payload = Returns n ->
         let r := HumiditySetpointCharacteristic.WriteValue bo be payload s in
         match remote_cmd be
                 [("cmd"%string, PStr (str "humidity_setpoint"));
                  ("value"%string, PInt n)] with
         | Raises _ =>
           (exists e : exn, fst r = Raises e /\ e <> FailedException)
           /\ self (snd r) = self s
         | Returns _ => fst r = Returns tt /\ self (snd r) = self s
         end).
Proof.
  intros Hb. split; [|split; [|split]].
  - intros s cmd Hd Hv r u Hu. subst r.
    rewrite (run_fan_write be s payload cmd Hb Hd), Hv. cbv zeta.
    rewrite Hu. split; reflexivity.
  - intros s n Hn Hacc r. subst r.
    rewrite (run_light_control_write be s payload Hb). cbv zeta.
    rewrite Hn, Hacc.
    destruct (remote_cmd be _); cbn.
    + repeat split.
    + split; [exists NameError; split; [reflexivity | discriminate]
             | reflexivity].
  - intros s Hlen r. subst r.
    unfold TemperatureSetpointCharacteristic.WriteValue. py_unfold.
    rewrite (py_bytes_ok _ Hb). cbn. unfold struct_unpack_d.
    rewrite Hlen. cbn.
    destruct (remote_cmd be _); cbn.
    + split; [reflexivity | destruct s; reflexivity].
    + split; [exists NameError; split; [reflexivity | discriminate]
             | destruct s; reflexivity].
  - intros s n Hn r. subst r.
    unfold HumiditySetpointCharacteristic.WriteValue. py_unfold.
    rewrite (py_bytes_ok _ Hb). cbn. rewrite Hn. cbn.
    destruct (remote_cmd be _); cbn.
    + split; [reflexivity | destruct s; reflexivity].
    + split; [exists NameError; split; [reflexivity | discriminate]
             | destruct s; reflexivity].
Qed.

Lemma write_backend_outcome_witness :
  self (snd (TemperatureSetpointCharacteristic.WriteValue
               little unreachable (struct_pack_d little double_21_5)
               (Store TemperatureSetpointCharacteristic.init [])))
  = TemperatureSetpointCharacteristic.init
  /\ value (self (snd (FanControlCharacteristic.WriteValue
                         answering (str "ON")
                         (Store FanControlCharacteristic.init []))))
     = str "ON".
Proof.
  split.
  - pose proof (write_backend_outcome little unreachable
                  (struct_pack_d little double_21_5) eq_refl)
      as (_ & _ & H & _).
    exact (proj2 (H (Store TemperatureSetpointCharacteristic.init [])
                    eq_refl)).
  - pose proof (write_backend_outcome little answering (str "ON") eq_refl)
      as (H & _).
    exact (proj2 (H (Store FanControlCharacteristic.init []) (str "ON")
                    eq_refl eq_refl tt eq_refl)).
Defined.

(** C4, the claim as written fails: a validated write to the temperature
    setpoint against a backend that raises does not surface [Failed], and one
    against a backend that answers does not make the payload the value. *)
Lemma write_outcome_not_as_specified :
  fst (TemperatureSetpointCharacteristic.WriteValue
         little unreachable (struct_pack_d little double_21_5)
         (Store TemperatureSetpointCharacteristic.init []))
  <> Raises FailedException
  /\ fst (TemperatureSetpointCharacteristic.WriteValue
            little answering (struct_pack_d little double_21_5)
            (Store TemperatureSetpointCharacteristic.init []))
     = Returns tt
  /\ value (self (snd (TemperatureSetpointCharacteristic.WriteValue
                         little answering (struct_pack_d little double_21_5)
                         (Store TemperatureSetpointCharacteristic.init []))))
     <> struct_pack_d little double_21_5.
Proof. repeat split; vm_compute; discriminate. Qed.

(** ** Start-up *)

(** Delivering answers to a running loop: an advertisement error among them
    stops the loop, and the critical record and the [quit] are the last things
    the process does. *)
Lemma deliver_advertisement_error answers :
  In (Advertisement, ErrorMessage) answers ->
  forall tr : list event,
    let r := deliver answers (Store {| mainloop := Some Running |} tr) in
    mainloop (self (snd r)) = Some Stopped
    /\ exists before : list event,
        trace (snd r) =
        before ++ [Logged CRITICAL "Failed to register advertisement: ";
                   MainLoopQuit].
Proof.
  induction answers as [|[reg answer] rest IH]; intros Hin tr; [destruct Hin|].
  destruct reg, answer.
  - destruct Hin as [Heq|Hin]; [discriminate|].
    exact (IH Hin (tr ++ [Logged INFO "Advertisement registered"])).
  - split; [reflexivity|]. exists tr.
    transitivity ((tr ++ [Logged CRITICAL "Failed to register advertisement: "])
                  ++ [MainLoopQuit]); [reflexivity|].
    rewrite <- app_assoc. reflexivity.
  - destruct Hin as [Heq|Hin]; [discriminate|].
    exact (IH Hin (tr ++ [Logged INFO "GATT application registered"])).
  - destruct Hin as [Heq|Hin]; [discriminate|].
    exact (IH Hin (tr ++ [CallbackRaised TypeError])).
Qed.

(** With nothing but method returns the loop keeps running and never quits. *)
Lemma deliver_method_returns answers :
  Forall (fun a => snd a = MethodReturn) answers ->
  forall tr : list event,
    let r := deliver answers (Store {| mainloop := Some Running |} tr) in
    mainloop (self (snd r)) = Some Running
    /\ (In MainLoopQuit (trace (snd r)) -> In MainLoopQuit tr).
Proof.
  induction answers as [|[reg answer] rest IH]; intros Hall tr.
  - cbn. split; [reflexivity | auto].
  - inversion Hall as [|? ? Hhd Htl]; subst. cbn in Hhd. subst answer.
    destruct reg.
    + destruct (IH Htl (tr ++ [Logged INFO "Advertisement registered"]))
        as [Ha Hb].
      split; [exact Ha|]. intros Hq. apply Hb in Hq.
      apply in_app_or in Hq as [Hq|[Hq|[]]]; [exact Hq | discriminate].
    + destruct (IH Htl (tr ++ [Logged INFO "GATT application registered"]))
        as [Ha Hb].
      split; [exact Ha|]. intros Hq. apply Hb in Hq.
      apply in_app_or in Hq as [Hq|[Hq|[]]]; [exact Hq | discriminate].
Qed.

Lemma main_with_adapter adapter answers :
  adapter <> ""%string ->
  main (Bluez (Some adapter) answers) boot =
  deliver answers (Store {| mainloop := Some Running |} startup_calls).
Proof. intros Hne. destruct adapter; [contradiction | reflexivity]. Qed.

Lemma main_without_adapter adapter answers :
  not_adapter adapter = true ->
  main (Bluez adapter answers) boot =
  (Returns tt,
   Store {| mainloop := None |}
         [Logged CRITICAL "GattManager1 interface not found"]).
Proof. intros H. unfold main. cbn [find_adapter]. rewrite H. reflexivity. Qed.

(** One answer delivered: the callback returns to the loop whatever happens
    inside it, and the trace only grows. *)
Lemma dispatch_run reg answer (s : store globals) :
  exists (g : globals) (ev : list event),
    dispatch reg answer s = (Returns tt, Store g (trace s ++ ev)).
Proof.
  destruct s as [[ml] tr].
  destruct reg, answer; [| destruct ml | |];
    unfold dispatch, handlers, invoke, run_callback, mainloop_quit;
    py_unfold; cbn; rewrite <- ?app_assoc; eexists _, _; reflexivity.
Qed.

Lemma deliver_extends answers :
  forall s : store globals,
  exists rest : list event,
    trace (snd (deliver answers s)) = trace s ++ rest.
Proof.
  induction answers as [|[reg answer] rest IH]; intros s.
  - exists []. cbn. now rewrite app_nil_r.
  - cbn [deliver]. unfold mbind, py_bind.
    destruct (dispatch_run reg answer s) as (g & ev & ->).
    unfold get_self. cbn [self].
    destruct (mainloop g) as [[| |]|].
    1,2,4: destruct (IH (Store g (trace s ++ ev))) as (rest' & Hr);
      exists (ev ++ rest'); rewrite Hr; cbn [trace];
      rewrite app_assoc; reflexivity.
    exists ev. reflexivity.
Qed.

(** C7 (as the code has it).  When [find_adapter] returns nothing, or an
    empty path, [main] logs a critical record and returns: no loop is built or
    run and nothing is registered.  With an adapter it powers the adapter,
    registers the agent, asks for the advertisement and then for the
    application to be registered, requests the default agent and runs the
    loop, in that order.  An error answer to the advertisement registration
    logs a critical record and stops the loop, and the process does nothing
    after that; with method returns only, the loop keeps running. *)
Theorem startup_sequence :
  (forall (adapter : option string) (answers : list (registration * reply)),
      adapter = None \/ adapter = Some ""%string ->
      main (Bluez adapter answers) boot =
      (Returns tt,
       Store {| mainloop := None |}
             [Logged CRITICAL "GattManager1 interface not found"]))
  /\ (forall (adapter : string) (answers : list (registration * reply)),
         adapter <> ""%string ->
         exists rest : list event,
           trace (snd (main (Bluez (Some adapter) answers) boot)) =
           [SetPowered;
            RegisterAgent AGENT_PATH "NoInputNoOutput";
            RegisterAdvertisement (Func register_ad_cb)
                                  (Func register_ad_error_cb);
            Logged INFO "Registering GATT application...";
            RegisterApplication (Func register_app_cb)
                                (ListOf [register_app_error_cb]);
            RequestDefaultAgent AGENT_PATH;
            MainLoopRun] ++ rest)
  /\ (forall (adapter : string) (answers : list (registration * reply)),
         adapter <> ""%string ->
         In (Advertisement, ErrorMessage) answers ->
         let r := main (Bluez (Some adapter) answers) boot in
         mainloop (self (snd r)) = Some Stopped
         /\ exists before : list event,
             trace (snd r) =
             before ++ [Logged CRITICAL "Failed to register advertisement: ";
                        MainLoopQuit])
  /\ (forall (adapter : string) (answers : list (registration * reply)),
         adapter <> ""%string ->
         Forall (fun a => snd a = MethodReturn) answers ->
         let r := main (Bluez (Some adapter) answers) boot in
         mainloop (self (snd r)) = Some Running
         /\ ~ In MainLoopQuit (trace (snd r))).
Proof.
  split; [|split; [|split]].
  - intros adapter answers [-> | ->]; reflexivity.
  - intros adapter answers Hne. rewrite (main_with_adapter _ _ Hne).
    exact (deliver_extends answers _).
  - intros adapter answers Hne Hin r. subst r.
    rewrite (main_with_adapter _ _ Hne).
    exact (deliver_advertisement_error answers Hin _).
  - intros adapter answers Hne Hall r. subst r.
    rewrite (main_with_adapter _ _ Hne).
    destruct (deliver_method_returns answers Hall startup_calls) as [Ha Hb].
    split; [exact Ha|]. intros Hq. apply Hb in Hq.
    unfold startup_calls in Hq. cbn in Hq.
    repeat destruct Hq as [Hq|Hq]; try discriminate. exact Hq.
Qed.

Lemma startup_sequence_witness :
  main (Bluez (Some ""%string) [(Advertisement, MethodReturn)]) boot
  = (Returns tt,
     Store {| mainloop := None |}
           [Logged CRITICAL "GattManager1 interface not found"])
  /\ mainloop
       (self (snd (main (Bluez (Some "/org/bluez/hci0"%string)
                               [(Application, MethodReturn);
                                (Advertisement, ErrorMessage)]) boot)))
     = Some Stopped
  /\ mainloop
       (self (snd (main (Bluez (Some "/org/bluez/hci0"%string)
                               [(Advertisement, MethodReturn);
                                (Application, MethodReturn)]) boot)))
     = Some Running.
Proof.
  destruct startup_sequence as (Hnone & _ & Hstop & Hrun).
  split; [|split].
  - apply Hnone. right. reflexivity.
  - refine (proj1 (Hstop _ _ _ _)); [discriminate|]. right. left. reflexivity.
  - refine (proj1 (Hrun _ _ _ _)); [discriminate|]. repeat constructor.
Defined.

(** C7, the claim as written fails: with an adapter found and no answer yet,
    the agent is registered before the advertisement, not after the
    application, so the calls of [main] are not in the order the claim gives. *)
Lemma startup_order_not_as_specified :
  spec_startup_order
    (trace (snd (main (Bluez (Some "/org/bluez/hci0"%string) []) boot)))
  = false
  /\ precedes is_RegisterAgent is_RegisterAdvertisement
       (trace (snd (main (Bluez (Some "/org/bluez/hci0"%string) []) boot)))
     = true.
Proof. split; reflexivity. Qed.

(** An error answer to the application registration is not terminal: the
    error handler given to the stack is a list, calling it raises [TypeError]
    inside the callback, and the loop keeps running with no critical record. *)
Example application_error_not_terminal :
  main (Bluez (Some "/org/bluez/hci0"%string) [(Application, ErrorMessage)])
       boot
  = (Returns tt,
     Store {| mainloop := Some Running |}
           (startup_calls ++ [CallbackRaised TypeError])).
Proof. reflexivity. Qed.

(** * Further properties of the handlers *)

(** ** The floating reads, whatever the backend answers *)

Lemma status_ReadValue_outcome bo msg key prints be s :
  let r := status_ReadValue bo msg key prints be s in
  exists v : list Z,
    fst r = Returns v
    /\ value (self (snd r)) = v
    /\ backend_calls (trace (snd r)) = backend_calls (trace s) ++ [RpcStatus]
    /\ (v = value (self s)
        \/ (length v = 8%nat /\ forallb is_byte v = true)).
Proof.
  py_unfold. unfold getitem. cbn.
  destruct (remote_status be) as [status|e]; cbn;
    [destruct prints; cbn; destruct (status !! key) as [x|]; cbn;
     try (destruct (py_float x) as [f|e]; cbn)|];
    eexists; (split; [reflexivity|]); (split; [reflexivity|]);
    (split; [calls_simpl; reflexivity|]);
    first [left; reflexivity
          | right; split;
            [apply length_int_to_native | apply int_to_native_bytes]].
Qed.

Lemma float_characteristics_inv key read :
  In (key, read) float_characteristics ->
  exists msg prints,
    read = (fun bo => status_ReadValue bo msg key prints).
Proof.
  unfold float_characteristics. intros Hin.
  repeat (destruct Hin as [Heq|Hin];
          [injection Heq as <- <-; eexists _, _; reflexivity|]).
  destruct Hin.
Qed.

(** X1.  A read of any of the five floating characteristics never raises to
    the caller, whatever the backend does: it makes exactly one status call and
    no other call on the backend, and returns the value it then holds, which is
    either the value it held before or 8 bytes. *)
Theorem float_read_total key read (bo : byteorder) (be : backend)
    (s : store Characteristic) :
  In (key, read) float_characteristics ->
  let r := read bo be s in
  exists v : list Z,
    fst r = Returns v
    /\ value (self (snd r)) = v
    /\ backend_calls (trace (snd r)) = backend_calls (trace s) ++ [RpcStatus]
    /\ (v = value (self s)
        \/ (length v = 8%nat /\ forallb is_byte v = true)).
Proof.
  intros Hin. destruct (float_characteristics_inv key read Hin)
    as (msg & prints & ->).
  apply status_ReadValue_outcome.
Qed.

Lemma float_read_total_witness :
  exists v : list Z,
    fst (HumidityCharacteristic.ReadValue little unreachable
           (Store HumidityCharacteristic.init [])) = Returns v.
Proof.
  destruct (float_read_total "humidity" HumidityCharacteristic.ReadValue
              little unreachable (Store HumidityCharacteristic.init []))
    as (v & Hv & _).
  - unfold float_characteristics. do 3 right. left. reflexivity.
  - exists v. exact Hv.
Defined.

(** X2.  Each floating read packs its own field of the status: with a status
    that holds the field, the read returns, and keeps, the 8 native-order bytes
    of [float] of that field, whatever else the status holds. *)
Theorem float_read_field key read (bo : byteorder) (be : backend)
    (s : store Characteristic) (status : gmap string dbus_value)
    (x : dbus_value) (f : Z) :
  In (key, read) float_characteristics ->
  remote_status be = Returns status ->
  status !! key = Some x ->
  py_float x = Returns f ->
  fst (read bo be s) = Returns (struct_pack_d bo f)
  /\ value (self (snd (read bo be s))) = struct_pack_d bo f
  /\ struct_unpack_d bo (struct_pack_d bo f) = Returns (f mod 2 ^ 64).
Proof.
  intros Hin Hs Hk Hf. destruct (float_characteristics_inv key read Hin)
    as (msg & prints & ->).
  destruct (status_ReadValue_answer bo msg key prints be s status x f
              Hs Hk Hf) as [Ha Hb].
  split; [exact Ha|]. split; [exact Hb|].
  unfold struct_unpack_d, struct_pack_d. rewrite length_int_to_native.
  cbn [Nat.eqb]. now rewrite native_to_int_int_to_native.
Qed.

Lemma float_read_field_witness :
  fst (HumiditySetpointCharacteristic.ReadValue little answering
         (Store HumiditySetpointCharacteristic.init []))
  = Returns (struct_pack_d little 0x404e000000000000).
Proof.
  refine (proj1 (float_read_field "humidity_setpoint"
                   HumiditySetpointCharacteristic.ReadValue little answering
                   (Store HumiditySetpointCharacteristic.init [])
                   _ (Integer 60) _ _ eq_refl _ eq_refl)).
  - unfold float_characteristics. do 4 right. left. reflexivity.
  - rewrite lookup_insert_ne by discriminate. apply lookup_singleton_eq.
Defined.

(** X3.  A status that answers but lacks the field, or holds an integer too
    large for a double, is handled like a backend that raises: the read
    returns the value held before and changes nothing. *)
Theorem float_read_missing_field key read (bo : byteorder) (be : backend)
    (s : store Characteristic) (status : gmap string dbus_value) :
  In (key, read) float_characteristics ->
  remote_status be = Returns status ->
  status !! key = None
  \/ (exists x e, status !! key = Some x /\ py_float x = Raises e) ->
  fst (read bo be s) = Returns (value (self s))
  /\ self (snd (read bo be s)) = self s.
Proof.
  intros Hin Hs Hk. destruct (float_characteristics_inv key read Hin)
    as (msg & prints & ->).
  py_unfold. unfold getitem. cbn. rewrite Hs.
  destruct Hk as [Hk|(x & e & Hk & Hx)]; destruct prints; cbn;
    rewrite Hk; cbn; rewrite ?Hx; cbn; split; reflexivity.
Qed.

Lemma float_read_missing_field_witness :
  fst (TemperatureCharacteristic.ReadValue little answering
         (Store TemperatureCharacteristic.init [])) = Returns [].
Proof.
  refine (proj1 (float_read_missing_field "temperature"
                   TemperatureCharacteristic.ReadValue little answering
                   (Store TemperatureCharacteristic.init []) _ _ eq_refl _)).
  - unfold float_characteristics. right. left. reflexivity.
  - left. rewrite lookup_insert_ne by discriminate.
    apply lookup_singleton_ne. discriminate.
Defined.

(** ** The setpoints *)

Lemma setpoint_write_self (bo : byteorder) (be : backend)
    (payload : list Z) (s : store Characteristic) :
  self (snd (TemperatureSetpointCharacteristic.WriteValue bo be payload s))
  = self s
  /\ self (snd (HumiditySetpointCharacteristic.WriteValue bo be payload s))
     = self s.
Proof.
  destruct s as [o tr].
  unfold TemperatureSetpointCharacteristic.WriteValue,
    HumiditySetpointCharacteristic.WriteValue, py_bytes, struct_unpack_d,
    struct_unpack_i.
  py_unfold. cbn.
  destruct (forallb is_byte payload); cbn; [|split; reflexivity].
  split.
  - destruct (Nat.eqb (length payload) 8); cbn; [|reflexivity].
    destruct (remote_cmd be _); reflexivity.
  - destruct (Nat.eqb (length payload) 4); cbn; [|reflexivity].
    destruct (remote_cmd be _); reflexivity.
Qed.

(** X4.  A write to the temperature or to the humidity setpoint never changes
    the characteristic, whatever the payload and whatever the backend does:
    only a read refreshes the value, so a read that follows a write against a
    backend that raises still returns the value held before the write. *)
Theorem setpoint_write_keeps_value (bo : byteorder) (be be' : backend)
    (payload : list Z) (s : store Characteristic) (e : exn) :
  remote_status be' = Raises e ->
  (self (snd (TemperatureSetpointCharacteristic.WriteValue bo be payload s))
   = self s
   /\ fst (TemperatureSetpointCharacteristic.ReadValue bo be'
             (snd (TemperatureSetpointCharacteristic.WriteValue
                     bo be payload s)))
      = Returns (value (self s)))
  /\ (self (snd (HumiditySetpointCharacteristic.WriteValue bo be payload s))
      = self s
      /\ fst (HumiditySetpointCharacteristic.ReadValue bo be'
                (snd (HumiditySetpointCharacteristic.WriteValue
                        bo be payload s)))
         = Returns (value (self s))).
Proof.
  intros He. destruct (setpoint_write_self bo be payload s) as [Ht Hh].
  unfold TemperatureSetpointCharacteristic.ReadValue,
    HumiditySetpointCharacteristic.ReadValue.
  split; (split; [assumption|]).
  - rewrite (proj1 (status_ReadValue_fallback bo _ _ _ be' _ e He)).
    now rewrite Ht.
  - rewrite (proj1 (status_ReadValue_fallback bo _ _ _ be' _ e He)).
    now rewrite Hh.
Qed.

Lemma setpoint_write_keeps_value_witness :
  fst (TemperatureSetpointCharacteristic.ReadValue little unreachable
         (snd (TemperatureSetpointCharacteristic.WriteValue little answering
                 (struct_pack_d little double_21_5)
                 (Store TemperatureSetpointCharacteristic.init []))))
  = Returns [].
Proof.
  exact (proj2 (proj1 (setpoint_write_keeps_value little answering
                         unreachable (struct_pack_d little double_21_5)
                         (Store TemperatureSetpointCharacteristic.init [])
                         (BackendError "DBusException") eq_refl))).
Defined.

Lemma serve_setpoint_step bo rq s :
  (empty_or_double (value (self s)) ->
   empty_or_double (value (self (serve_temperature_setpoint bo rq s))))
  /\ (empty_or_double (value (self s)) ->
      empty_or_double (value (self (serve_humidity_setpoint bo rq s)))).
Proof.
  destruct rq as [be|be payload]; cbn [serve_temperature_setpoint
                                        serve_humidity_setpoint].
  - unfold TemperatureSetpointCharacteristic.ReadValue,
      HumiditySetpointCharacteristic.ReadValue.
    split; intros H;
      [destruct (status_ReadValue_outcome bo "Temperature setpoint read: "
                   "temperature_setpoint" true be s) as (v & _ & -> & _ & Hv)
      |destruct (status_ReadValue_outcome bo "Humidity setpoint read: "
                   "humidity_setpoint" false be s) as (v & _ & -> & _ & Hv)];
      (destruct Hv as [->|Hv]; [exact H | right; exact Hv]).
  - destruct (setpoint_write_self bo be payload s) as [-> ->].
    split; auto.
Qed.

(** An invariant of every single request is an invariant of every sequence
    of requests. *)
Lemma serve_all_invariant {Obj : Type}
    (serve : request -> store Obj -> store Obj) (P : store Obj -> Prop) :
  (forall rq s, P s -> P (serve rq s)) ->
  forall rqs s, P s -> P (serve_all serve rqs s).
Proof.
  intros Hstep. unfold serve_all.
  induction rqs as [|rq rqs IH]; intros s Hs; [exact Hs|].
  cbn [fold_left]. apply IH. now apply Hstep.
Qed.

(** X5.  After any sequence of reads and writes, with any payloads and any
    backends, a setpoint characteristic holds either no byte at all or exactly
    8 bytes: a client never reads a value of another length. *)
Theorem setpoint_value_length (bo : byteorder) (rqs : list request) :
  empty_or_double
    (value (self (serve_all (serve_temperature_setpoint bo) rqs
                    (Store TemperatureSetpointCharacteristic.init []))))
  /\ empty_or_double
       (value (self (serve_all (serve_humidity_setpoint bo) rqs
                       (Store HumiditySetpointCharacteristic.init [])))).
Proof.
  split.
  - apply (serve_all_invariant (serve_temperature_setpoint bo)
             (fun s => empty_or_double (value (self s)))).
    + intros rq s. exact (proj1 (serve_setpoint_step bo rq s)).
    + left. reflexivity.
  - apply (serve_all_invariant (serve_humidity_setpoint bo)
             (fun s => empty_or_double (value (self s)))).
    + intros rq s. exact (proj2 (serve_setpoint_step bo rq s)).
    + left. reflexivity.
Qed.

(** X6.  The temperature setpoint can be written back as read: the bytes a
    successful read returns, given to a write, submit to the backend exactly
    the double the status reported. *)
Theorem temperature_setpoint_read_then_write (bo : byteorder)
    (be1 be2 : backend) (s : store Characteristic)
    (status : gmap string dbus_value) (x : dbus_value) (f : Z) :
  remote_status be1 = Returns status ->
  status !! "temperature_setpoint"%string = Some x ->
  py_float x = Returns f ->
  is_double f ->
  let r1 := TemperatureSetpointCharacteristic.ReadValue bo be1 s in
  exists v : list Z,
    fst r1 = Returns v
    /\ backend_calls
         (trace (snd (TemperatureSetpointCharacteristic.WriteValue
                        bo be2 v (snd r1))))
       = backend_calls (trace (snd r1)) ++
         [RpcCmd [("cmd"%string, PStr (str "temperature_setpoint"));
                  ("value"%string, PFloat f)]].
Proof.
  intros Hs Hk Hf Hd r1. exists (struct_pack_d bo f). split.
  - exact (proj1 (status_ReadValue_answer bo _ _ true be1 s status x f
                    Hs Hk Hf)).
  - unfold TemperatureSetpointCharacteristic.WriteValue. py_unfold.
    unfold struct_pack_d at 1.
    rewrite (py_bytes_ok _ (int_to_native_bytes bo 8 f)). cbn.
    unfold struct_unpack_d. rewrite length_int_to_native. cbn.
    rewrite native_to_int_int_to_native.
    replace (f mod 256 ^ Z.of_nat 8) with f
      by (symmetry; apply Z.mod_small; exact Hd).
    destruct (remote_cmd be2 _); calls_simpl; reflexivity.
Qed.

Lemma temperature_setpoint_read_then_write_witness :
  exists v : list Z,
    fst (TemperatureSetpointCharacteristic.ReadValue little
           (Backend (requests_get answering) (requests_post answering)
                    (Returns {[ "temperature_setpoint"%string
                                := Double double_21_5 ]})
                    (remote_cmd answering))
           (Store TemperatureSetpointCharacteristic.init []))
    = Returns v.
Proof.
  assert (Hd : is_double double_21_5) by (unfold is_double, double_21_5; lia).
  destruct (temperature_setpoint_read_then_write little
              (Backend (requests_get answering) (requests_post answering)
                       (Returns {[ "temperature_setpoint"%string
                                   := Double double_21_5 ]})
                       (remote_cmd answering))
              answering (Store TemperatureSetpointCharacteristic.init [])
              _ (Double double_21_5) double_21_5 eq_refl
              (lookup_singleton_eq _ _) eq_refl Hd) as (v & Hv & _).
  exists v. exact Hv.
Defined.

(** X7.  The humidity setpoint cannot be written back as read: the bytes a
    successful read returns are 8, and a write of them raises [struct.error]
    without a call on the backend. *)
Theorem humidity_setpoint_read_then_write (bo : byteorder)
    (be1 be2 : backend) (s : store Characteristic)
    (status : gmap string dbus_value) (x : dbus_value) (f : Z) :
  remote_status be1 = Returns status ->
  status !! "humidity_setpoint"%string = Some x ->
  py_float x = Returns f ->
  let r1 := HumiditySetpointCharacteristic.ReadValue bo be1 s in
  exists v : list Z,
    fst r1 = Returns v
    /\ length v = 8%nat
    /\ fst (HumiditySetpointCharacteristic.WriteValue bo be2 v (snd r1))
       = Raises struct_error
    /\ backend_calls
         (trace (snd (HumiditySetpointCharacteristic.WriteValue
                        bo be2 v (snd r1))))
       = backend_calls (trace (snd r1)).
Proof.
  intros Hs Hk Hf r1. exists (struct_pack_d bo f). split; [|split].
  - exact (proj1 (status_ReadValue_answer bo _ _ false be1 s status x f
                    Hs Hk Hf)).
  - apply length_int_to_native.
  - unfold HumiditySetpointCharacteristic.WriteValue. py_unfold.
    unfold struct_pack_d.
    rewrite (py_bytes_ok _ (int_to_native_bytes bo 8 f)). cbn.
    unfold struct_unpack_i. rewrite length_int_to_native. cbn.
    split; [reflexivity | calls_simpl; reflexivity].
Qed.

Lemma humidity_setpoint_read_then_write_witness :
  exists v : list Z,
    fst (HumiditySetpointCharacteristic.ReadValue little answering
           (Store HumiditySetpointCharacteristic.init [])) = Returns v
    /\ length v = 8%nat.
Proof.
  assert (Hk : (<[ "light"%string := Double double_42 ]>
                {[ "humidity_setpoint"%string := Integer 60 ]}
                : gmap string dbus_value)
               !! "humidity_setpoint"%string = Some (Integer 60)).
  { rewrite lookup_insert_ne by discriminate. apply lookup_singleton_eq. }
  destruct (humidity_setpoint_read_then_write little answering answering
              (Store HumiditySetpointCharacteristic.init [])
              _ (Integer 60) 0x404e000000000000 eq_refl Hk eq_refl)
    as (v & Hv & Hl & _).
  exists v. split; assumption.
Defined.

(** ** The fan *)

Ltac utf8_cases :=
  repeat match goal with
         | |- context [if ?b then _ else _] =>
           let E := fresh "E" in
           destruct b eqn:E;
           try (exfalso; unfold second3, second4, cont, between in *;
                repeat match goal with
                       | H : context [if ?c then _ else _] |- _ =>
                         destruct c eqn:?
                       end;
                Z.div_mod_to_equations; lia)
         end.

(** Decoding undoes encoding, one character at a time. *)
Lemma utf8_encode_char_decode c bs rest :
  utf8_encode_char c = Some bs ->
  utf8_decode (bs ++ rest) = cons c <$> utf8_decode rest
  /\ forallb is_byte bs = true.
Proof.
  unfold utf8_encode_char. intros H.
  destruct (between 0 127 c) eqn:E1.
  { injection H as <-. cbn [app utf8_decode]. rewrite E1.
    split; [reflexivity|]. cbn. unfold is_byte, between in *. lia. }
  destruct (between 128 2047 c) eqn:E2.
  { injection H as <-. cbn [app utf8_decode]. split.
    - utf8_cases. do 2 f_equal. Z.div_mod_to_equations; lia.
    - cbn. unfold is_byte, between in *. Z.div_mod_to_equations; lia. }
  destruct (between 55296 57343 c) eqn:E3; [discriminate|].
  destruct (between 2048 65535 c) eqn:E4.
  { injection H as <-. cbn [app utf8_decode]. split.
    - utf8_cases. do 2 f_equal. Z.div_mod_to_equations; lia.
    - cbn. unfold is_byte, between in *. Z.div_mod_to_equations; lia. }
  destruct (between 65536 1114111 c) eqn:E5; [|discriminate].
  injection H as <-. cbn [app utf8_decode]. split.
  - utf8_cases. do 2 f_equal. Z.div_mod_to_equations; lia.
  - cbn. unfold is_byte, between in *. Z.div_mod_to_equations; lia.
Qed.

(** The bytes [str.encode] produces decode back to the text. *)
Lemma utf8_encode_decode s bs :
  utf8_encode s = Some bs ->
  utf8_decode bs = Some s /\ forallb is_byte bs = true.
Proof.
  revert bs. induction s as [|c s IH]; intros bs H.
  - injection H as <-. split; reflexivity.
  - cbn [utf8_encode] in H.
    destruct (utf8_encode_char c) as [cs|] eqn:Ec; [|discriminate].
    destruct (utf8_encode s) as [rest|] eqn:Es; [|discriminate].
    injection H as <-.
    destruct (IH rest eq_refl) as [Hd Hb].
    destruct (utf8_encode_char_decode c cs rest Ec) as [Hc Hcb].
    split.
    + rewrite Hc, Hd. reflexivity.
    + rewrite forallb_app, Hcb, Hb. reflexivity.
Qed.

(** X8.  A read of the fan makes one status request and then either returns,
    and keeps, the UTF-8 bytes of the text the backend reports under ["fan"],
    or raises [TypeError] and keeps the value it had: it never answers with a
    text the backend did not report. *)
Theorem fan_read_outcome (be : backend) (s : store Characteristic) :
  let r := FanControlCharacteristic.ReadValue be s in
  backend_calls (trace (snd r))
  = backend_calls (trace s) ++ [HttpGet (Gr0GBaseUrl ++ ".status")]
  /\ ((exists (res : gmap string pyval) (txt : pystr) (bs : list Z),
          requests_get be (Gr0GBaseUrl ++ ".status")%string = Returns res
          /\ res !! "fan"%string = Some (PStr txt)
          /\ utf8_encode txt = Some bs
          /\ fst r = Returns bs
          /\ value (self (snd r)) = bs)
      \/ (fst r = Raises TypeError /\ self (snd r) = self s)).
Proof.
  destruct s as [o tr].
  unfold FanControlCharacteristic.ReadValue. py_unfold. unfold getitem. cbn.
  destruct (requests_get be _) as [res|e] eqn:Hg; cbn;
    [|split; [calls_simpl; reflexivity | right; split; reflexivity]].
  destruct (res !! "fan"%string) as [fan|] eqn:Hk; cbn;
    [|split; [calls_simpl; reflexivity | right; split; reflexivity]].
  destruct fan as [txt| | | | |]; cbn;
    try (split; [calls_simpl; reflexivity | right; split; reflexivity]).
  destruct (utf8_encode txt) as [bs|] eqn:He; cbn;
    [|split; [calls_simpl; reflexivity | right; split; reflexivity]].
  split; [calls_simpl; reflexivity|]. left.
  exists res, txt, bs. repeat split; assumption.
Qed.

(** X9.  What a successful read of the fan returns is accepted by a write of
    the fan exactly when the text the backend reported is ["ON"], ["OFF"] or
    ["UNKNOWN"]; any other reported text, a lower-case ["on"] included, is
    refused when written back. *)
Theorem fan_read_then_write (be1 be2 : backend) (s : store Characteristic)
    (res : gmap string pyval) (txt : pystr) (bs : list Z) :
  requests_get be1 (Gr0GBaseUrl ++ ".status")%string = Returns res ->
  res !! "fan"%string = Some (PStr txt) ->
  utf8_encode txt = Some bs ->
  let r1 := FanControlCharacteristic.ReadValue be1 s in
  fst r1 = Returns bs
  /\ (fst (FanControlCharacteristic.WriteValue be2 bs (snd r1))
      = Raises NotPermittedException
      <-> ~ exists m : State, txt = State_value m).
Proof.
  intros Hg Hk He r1.
  destruct (utf8_encode_decode txt bs He) as [Hd Hb].
  split.
  - subst r1. unfold FanControlCharacteristic.ReadValue. py_unfold.
    unfold getitem. cbn. rewrite Hg. cbn. rewrite Hk. cbn. rewrite He.
    reflexivity.
  - rewrite (run_fan_write be2 (snd r1) bs txt Hb Hd).
    rewrite <- has_value_spec.
    destruct (FanControlCharacteristic.has_value txt); cbv zeta.
    + split; [|intros H; exfalso; apply H; reflexivity].
      destruct (requests_post be2 _ _); cbn; discriminate.
    + split; [intros _; discriminate | reflexivity].
Qed.

Lemma fan_read_then_write_witness :
  fst (FanControlCharacteristic.ReadValue answering
         (Store FanControlCharacteristic.init [])) = Returns (str "ON").
Proof.
  exact (proj1 (fan_read_then_write answering answering
                  (Store FanControlCharacteristic.init [])
                  _ (str "ON") (str "ON") eq_refl
                  (lookup_singleton_eq _ _) eq_refl)).
Defined.

(** X10.  A write to the fan changes the value only when it returns, and then
    the value is the payload; whenever it raises, for whatever reason, the
    value is as before.  A payload that is not UTF-8 raises
    [UnicodeDecodeError] before any call on the backend. *)
Theorem fan_write_all_or_nothing (be : backend) (payload : list Z)
    (s : store Characteristic) :
  let r := FanControlCharacteristic.WriteValue be payload s in
  (forall e : exn, fst r = Raises e -> self (snd r) = self s)
  /\ (forall u : unit, fst r = Returns u -> value (self (snd r)) = payload)
  /\ (forallb is_byte payload = true ->
      utf8_decode payload = None ->
      fst r = Raises UnicodeDecodeError
      /\ backend_calls (trace (snd r)) = backend_calls (trace s)).
Proof.
  destruct s as [o tr].
  unfold FanControlCharacteristic.WriteValue, py_bytes. py_unfold. cbn.
  destruct (forallb is_byte payload); cbn.
  2: { repeat split; try discriminate. }
  destruct (utf8_decode payload) as [cmd|]; cbn.
  2: { split; [reflexivity|]. split; [discriminate|].
       intros _ _. split; [reflexivity | calls_simpl; reflexivity]. }
  destruct (FanControlCharacteristic.has_value cmd); cbn.
  - destruct (requests_post be _ _); cbn;
      (split; [intros ?; try discriminate; reflexivity|]);
      (split; [intros ?; try discriminate; reflexivity|]);
      intros _ H; discriminate.
  - split; [reflexivity|]. split; [discriminate|]. intros _ H; discriminate.
Qed.

Lemma fan_write_all_or_nothing_witness :
  fst (FanControlCharacteristic.WriteValue answering [0xFF]
         (Store FanControlCharacteristic.init []))
  = Raises UnicodeDecodeError.
Proof.
  pose proof (fan_write_all_or_nothing answering [0xFF]
                (Store FanControlCharacteristic.init [])) as H.
  cbv zeta in H. destruct H as (_ & _ & H).
  exact (proj1 (H eq_refl eq_refl)).
Defined.

(** ** The light control *)

(** What any write to the light control leaves behind: the object as it was,
    or the object with an accepted number as its last accepted value. *)
Lemma light_control_write_effect be payload s :
  let r := LightControlCharacteristic.WriteValue be payload s in
  self (snd r) = self s
  \/ exists n : Z,
      accepted_state n = true
      /\ fst r = Returns tt
      /\ self (snd r)
         = {| LightControlCharacteristic.value :=
                LightControlCharacteristic.value (self s);
              LightControlCharacteristic.lastValue := n |}.
Proof.
  destruct s as [o tr].
  unfold LightControlCharacteristic.WriteValue,
    LightControlCharacteristic.set_lastValue. py_unfold. cbn.
  destruct (LightControlCharacteristic.join_chr payload) as [svalue|e]; cbn;
    [|left; reflexivity].
  destruct (py_int svalue) as [n|e]; cbn; [|left; reflexivity].
  destruct ((n =? 0) || (n =? 1) || (n =? 2)) eqn:Hn; cbn;
    [|left; reflexivity].
  destruct (remote_cmd be _); cbn; [|left; reflexivity].
  right. exists n. repeat split. exact Hn.
Qed.

(** X11.  After any sequence of reads and writes of the light control, with
    any payloads and any backends, the last accepted value is 0, 1 or 2 and
    the value is a single byte that is 0, 1 or 2. *)
Theorem light_control_state_range (rqs : list request) :
  let s := serve_all serve_light_control rqs
                     (Store LightControlCharacteristic.init []) in
  accepted_state (LightControlCharacteristic.lastValue (self s)) = true
  /\ exists v : Z,
      LightControlCharacteristic.value (self s) = [v]
      /\ accepted_state v = true.
Proof.
  apply (serve_all_invariant serve_light_control
           (fun s =>
              accepted_state (LightControlCharacteristic.lastValue (self s))
              = true
              /\ exists v : Z,
                  LightControlCharacteristic.value (self s) = [v]
                  /\ accepted_state v = true)).
  - intros [be|be payload] s (Hl & v & Hv & Hacc); cbn [serve_light_control].
    + destruct s as [o tr]. cbn in *. split; [exact Hl|].
      exists (LightControlCharacteristic.lastValue o). split; [reflexivity|].
      exact Hl.
    + destruct (light_control_write_effect be payload s)
        as [->|(n & Hn & _ & ->)].
      * split; [exact Hl|]. exists v. split; assumption.
      * cbn. split; [exact Hn|]. exists v. split; assumption.
  - split; [reflexivity|]. exists 0. split; reflexivity.
Qed.

(** X12.  A read that follows a write returns the single byte of the number
    just accepted when the write returned, and the single byte of the number
    accepted before when the write raised; the read asks the backend
    nothing. *)
Theorem light_control_write_then_read (be1 be2 : backend)
    (payload : list Z) (s : store LightControlCharacteristic.t) :
  let r1 := LightControlCharacteristic.WriteValue be1 payload s in
  let r2 := LightControlCharacteristic.ReadValue be2 (snd r1) in
  (forall n : Z,
      forallb is_byte payload = true ->
      py_int payload = Returns n ->
      fst r1 = Returns tt ->
      fst r2 = Returns [n])
  /\ (forall e : exn,
         fst r1 = Raises e ->
         fst r2 = Returns [LightControlCharacteristic.lastValue (self s)])
  /\ backend_calls (trace (snd r2)) = backend_calls (trace (snd r1)).
Proof.
  intros r1 r2.
  destruct (light_control_read be2 (snd r1)) as [Hr Hc]. fold r2 in Hr, Hc.
  split; [|split; [|exact Hc]].
  - intros n Hb Hn Hok. rewrite Hr. subst r1.
    rewrite (run_light_control_write be1 s payload Hb) in *. cbv zeta in *.
    rewrite Hn in *.
    destruct (accepted_state n); [|discriminate].
    destruct (remote_cmd be1 _); [reflexivity | discriminate].
  - intros e He. rewrite Hr.
    destruct (light_control_write_effect be1 payload s)
      as [Heq|(n & _ & Hok & _)].
    + fold r1 in Heq. rewrite Heq. reflexivity.
    + fold r1 in Hok. congruence.
Qed.

Lemma light_control_write_then_read_witness :
  fst (LightControlCharacteristic.ReadValue unreachable
         (snd (LightControlCharacteristic.WriteValue answering (str "2")
                 (Store LightControlCharacteristic.init []))))
  = Returns [2]
  /\ fst (LightControlCharacteristic.ReadValue unreachable
            (snd (LightControlCharacteristic.WriteValue answering (str "7")
                    (Store LightControlCharacteristic.init []))))
     = Returns [0].
Proof.
  split.
  - pose proof (light_control_write_then_read answering unreachable
                  (str "2") (Store LightControlCharacteristic.init [])) as H.
    cbv zeta in H. destruct H as (H & _).
    exact (H 2 eq_refl eq_refl eq_refl).
  - pose proof (light_control_write_then_read answering unreachable
                  (str "7") (Store LightControlCharacteristic.init [])) as H.
    cbv zeta in H. destruct H as (_ & H & _).
    exact (H NameError eq_refl).
Defined.

Lemma skip_space_chars t :
  forallb int_ascii_char (skip_space t) = true ->
  forallb int_ascii_char t = true.
Proof.
  induction t as [|c t IH]; [reflexivity|]. cbn [skip_space].
  destruct (Py_ISSPACE c) eqn:E; [|trivial].
  intros H. cbn [forallb]. rewrite (IH H), andb_true_r.
  unfold int_ascii_char. rewrite E. reflexivity.
Qed.

Lemma skip_space_nil t :
  skip_space t = [] -> forallb int_ascii_char t = true.
Proof.
  intros H. apply skip_space_chars. rewrite H. reflexivity.
Qed.

Lemma scan_digits_chars t :
  forall acc prev n rest,
    scan_digits acc prev t = Some (n, rest) ->
    forallb int_ascii_char rest = true ->
    forallb int_ascii_char t = true.
Proof.
  induction t as [|c t IH]; intros acc prev n rest H Hrest.
  - reflexivity.
  - cbn [scan_digits] in H. cbn [forallb].
    destruct (between 48 57 c) eqn:Ed.
    + rewrite (IH _ _ _ _ H Hrest), andb_true_r.
      unfold int_ascii_char. rewrite Ed. now rewrite !orb_true_r.
    + destruct (c =? 95) eqn:Eu.
      * destruct prev; try discriminate.
        rewrite (IH _ _ _ _ H Hrest), andb_true_r.
        unfold int_ascii_char. rewrite Eu. now rewrite !orb_true_r.
      * destruct prev; try discriminate. injection H as _ <-.
        exact Hrest.
Qed.

Lemma sign_split (t : pystr) :
  exists (negative : bool) (t1 : pystr),
    match t with
    | 43 :: r => (false, r)
    | 45 :: r => (true, r)
    | _ => (false, t)
    end = (negative, t1)
    /\ (forallb int_ascii_char t1 = true ->
        forallb int_ascii_char t = true).
Proof.
  destruct t as [|c t']; [exists false, []; split; [reflexivity | trivial]|].
  destruct (Z.eq_dec c 43) as [->|N43].
  { exists false, t'. split; [reflexivity|]. intros H.
    cbn [forallb]. rewrite H. reflexivity. }
  destruct (Z.eq_dec c 45) as [->|N45].
  { exists true, t'. split; [reflexivity|]. intros H.
    cbn [forallb]. rewrite H. reflexivity. }
  exists false, (c :: t'). split; [|trivial].
  destruct c as [|p|p]; try reflexivity.
  repeat match goal with
         | q : positive |- _ => destruct q; try reflexivity
         end; congruence.
Qed.

(** A text [int()] reads holds nothing but white space, a sign, underscores
    and decimal digits. *)
Lemma py_int_chars s n :
  py_int s = Returns n -> forallb int_char s = true.
Proof.
  unfold py_int. intros H.
  assert (Ht : forallb int_ascii_char (transform_space s) = true).
  { apply skip_space_chars.
    destruct (sign_split (skip_space (transform_space s)))
      as (negative & t1 & Hm & Himp).
    cbv zeta in H. rewrite Hm in H. apply Himp.
    destruct (scan_digits 0 Start t1) as [[n0 rest]|] eqn:Es;
      [|discriminate].
    destruct (skip_space rest) eqn:Er; [|discriminate].
    exact (scan_digits_chars t1 _ _ _ _ Es (skip_space_nil rest Er)). }
  clear H. induction s as [|c s IH]; [reflexivity|].
  cbn [transform_space] in Ht. cbn [forallb].
  destruct (c <? 127) eqn:E1.
  - cbn [forallb] in Ht. apply andb_true_iff in Ht as [Hc Hs].
    rewrite (IH Hs), andb_true_r.
    unfold int_char, int_ascii_char in *.
    destruct (Py_ISSPACE c), (Py_UNICODE_ISSPACE c), (c =? 43), (c =? 45),
      (c =? 95), (between 48 57 c); try reflexivity; discriminate.
  - destruct (Py_UNICODE_ISSPACE c) eqn:E2.
    + cbn [forallb] in Ht. apply andb_true_iff in Ht as [_ Hs].
      rewrite (IH Hs), andb_true_r.
      unfold int_char. rewrite E2. now rewrite !orb_true_r.
    + discriminate.
Qed.

Lemma py_lower_int_chars s :
  forallb int_char s = true -> py_lower s = s.
Proof.
  unfold py_lower. induction s as [|c s IH]; intros H; [reflexivity|].
  cbn [forallb] in H. apply andb_true_iff in H as [Hc Hs].
  cbn [map]. rewrite (IH Hs). f_equal.
  unfold int_char, Py_ISSPACE, Py_UNICODE_ISSPACE, lower_char, between in *.
  destruct ((65 <=? c) && (c <=? 90)) eqn:E1; [lia|].
  destruct ((192 <=? c) && (c <=? 222) && negb (c =? 215)) eqn:E2;
    [lia | reflexivity].
Qed.

(** X13.  The state the light control forwards to the backend is the payload
    text itself, not the number read from it: an accepted payload goes out
    byte for byte, with its sign, white space, leading zeros or underscores. *)
Theorem light_control_forwards_payload (be : backend) (payload : list Z)
    (s : store LightControlCharacteristic.t) (n : Z) :
  forallb is_byte payload = true ->
  py_int payload = Returns n ->
  accepted_state n = true ->
  backend_calls
    (trace (snd (LightControlCharacteristic.WriteValue be payload s)))
  = backend_calls (trace s) ++
    [RpcCmd [("cmd"%string, PStr (str "setlight"));
             ("state"%string, PStr payload)]].
Proof.
  intros Hb Hn Hacc.
  rewrite (run_light_control_write be s payload Hb). cbv zeta.
  rewrite Hn, Hacc, (py_lower_int_chars payload (py_int_chars payload n Hn)).
  destruct (remote_cmd be _); calls_simpl; reflexivity.
Qed.

Lemma light_control_forwards_payload_witness :
  backend_calls
    (trace (snd (LightControlCharacteristic.WriteValue answering (str " +0_1")
                   (Store LightControlCharacteristic.init []))))
  = [RpcCmd [("cmd"%string, PStr (str "setlight"));
             ("state"%string, PStr (str " +0_1"))]].
Proof.
  exact (light_control_forwards_payload answering (str " +0_1")
           (Store LightControlCharacteristic.init []) 1
           eq_refl eq_refl eq_refl).
Defined.

(** ** The loop and the answers to the registrations *)

(** One answer delivered to a loop that exists.  Only an advertisement error
    stops it; an application error ends in a [TypeError] inside the
    callback. *)
Lemma dispatch_cases reg answer l tr :
  dispatch reg answer (Store {| mainloop := Some l |} tr) =
  match reg, answer with
  | Advertisement, MethodReturn =>
    (Returns tt, Store {| mainloop := Some l |}
                       (tr ++ [Logged INFO "Advertisement registered"]))
  | Advertisement, ErrorMessage =>
    (Returns tt,
     Store {| mainloop := Some Stopped |}
           (tr ++ [Logged CRITICAL "Failed to register advertisement: ";
                   MainLoopQuit]))
  | Application, MethodReturn =>
    (Returns tt, Store {| mainloop := Some l |}
                       (tr ++ [Logged INFO "GATT application registered"]))
  | Application, ErrorMessage =>
    (Returns tt, Store {| mainloop := Some l |}
                       (tr ++ [CallbackRaised TypeError]))
  end.
Proof.
  destruct reg, answer;
    unfold dispatch, handlers, invoke, run_callback, mainloop_quit;
    py_unfold; cbn; rewrite <- ?app_assoc; reflexivity.
Qed.

Lemma deliver_cons reg answer rest l tr :
  deliver ((reg, answer) :: rest) (Store {| mainloop := Some l |} tr) =
  match reg, answer with
  | Advertisement, ErrorMessage =>
    (Returns tt,
     Store {| mainloop := Some Stopped |}
           (tr ++ [Logged CRITICAL "Failed to register advertisement: ";
                   MainLoopQuit]))
  | _, _ =>
    match l with
    | Stopped => dispatch reg answer (Store {| mainloop := Some l |} tr)
    | _ => deliver rest (snd (dispatch reg answer
                                (Store {| mainloop := Some l |} tr)))
    end
  end.
Proof.
  cbn [deliver]. unfold mbind, py_bind. rewrite dispatch_cases.
  destruct reg, answer, l; reflexivity.
Qed.

(** X14.  Once an advertisement error has stopped the loop, the answers that
    arrive later are never delivered: the run is the same as if they had not
    been sent. *)
Theorem answers_after_stop_ignored (adapter : string)
    (before later : list (registration * reply)) :
  main (Bluez (Some adapter)
              (before ++ (Advertisement, ErrorMessage) :: later)) boot
  = main (Bluez (Some adapter)
                (before ++ [(Advertisement, ErrorMessage)])) boot.
Proof.
  destruct adapter as [|c path]; [reflexivity|].
  rewrite !main_with_adapter by discriminate. generalize startup_calls as tr.
  induction before as [|[reg answer] before IH]; intros tr.
  - cbn [app]. rewrite !deliver_cons. reflexivity.
  - cbn [app]. rewrite !deliver_cons, dispatch_cases.
    destruct reg, answer; cbn [snd]; try apply IH. reflexivity.
Qed.

Lemma deliver_without_advertisement_error answers :
  ~ In (Advertisement, ErrorMessage) answers ->
  forall tr : list event,
    let r := deliver answers (Store {| mainloop := Some Running |} tr) in
    mainloop (self (snd r)) = Some Running
    /\ (forall ev, In ev (trace (snd r)) ->
                   In ev tr \/ is_critical ev = false /\ ev <> MainLoopQuit)
    /\ (In (Application, ErrorMessage) answers ->
        In (CallbackRaised TypeError) (trace (snd r))).
Proof.
  induction answers as [|[reg answer] rest IH]; intros Hno tr.
  - cbn. split; [reflexivity|]. split; [auto | intros []].
  - assert (Hrest : ~ In (Advertisement, ErrorMessage) rest)
      by (intros H; apply Hno; right; exact H).
    cbv zeta. rewrite deliver_cons, dispatch_cases.
    destruct reg, answer; cbn [snd];
      try (exfalso; apply Hno; left; reflexivity);
      match goal with
      | |- context [deliver rest (Store _ (tr ++ [?e]))] =>
        destruct (IH Hrest (tr ++ [e])) as (Ha & Hb & Hc);
        destruct (deliver_extends rest
                    (Store {| mainloop := Some Running |} (tr ++ [e])))
          as (more & Hmore)
      end;
      (split; [exact Ha|]); (split;
        [intros ev Hev; destruct (Hb ev Hev) as [Hin|Hok];
         [apply in_app_or in Hin as [Hin|[<-|[]]];
          [left; exact Hin | right; split; [reflexivity | discriminate]]
         | right; exact Hok]
        |]).
    + intros [Heq|Hin]; [discriminate | exact (Hc Hin)].
    + intros [Heq|Hin]; [discriminate | exact (Hc Hin)].
    + intros _. rewrite Hmore. cbn [trace].
      apply in_or_app. left. apply in_or_app. right. left. reflexivity.
Qed.

(** The exceptions that escape the callbacks of a running loop: one
    [TypeError] for each error answer to the application registration, in the
    order of arrival, and nothing else. *)
Lemma deliver_callback_errors answers :
  ~ In (Advertisement, ErrorMessage) answers ->
  forall tr : list event,
    List.filter is_CallbackRaised
      (trace (snd (deliver answers
                     (Store {| mainloop := Some Running |} tr))))
    = List.filter is_CallbackRaised tr ++
      map (fun _ => CallbackRaised TypeError)
          (List.filter is_application_error answers).
Proof.
  induction answers as [|[reg answer] rest IH]; intros Hno tr.
  - cbn. now rewrite app_nil_r.
  - assert (Hrest : ~ In (Advertisement, ErrorMessage) rest)
      by (intros H; apply Hno; right; exact H).
    rewrite deliver_cons, dispatch_cases.
    destruct reg, answer; cbn [snd];
      try (exfalso; apply Hno; left; reflexivity);
      rewrite (IH Hrest), List.filter_app; cbn;
      rewrite <- ?app_assoc; cbn; reflexivity.
Qed.

(** X15.  With an adapter found, no answer other than an advertisement error
    stops the loop.  With no advertisement error among the answers the loop
    stays running, no critical record is logged and [quit] is never called,
    however many error answers the application registration gets; every one
    of these ends as a [TypeError] raised inside the callback, and nothing
    else is raised there. *)
Theorem only_advertisement_error_stops (adapter : string)
    (answers : list (registration * reply)) :
  adapter <> ""%string ->
  ~ In (Advertisement, ErrorMessage) answers ->
  let r := main (Bluez (Some adapter) answers) boot in
  mainloop (self (snd r)) = Some Running
  /\ ~ In MainLoopQuit (trace (snd r))
  /\ existsb is_critical (trace (snd r)) = false
  /\ List.filter is_CallbackRaised (trace (snd r))
     = map (fun _ => CallbackRaised TypeError)
           (List.filter is_application_error answers).
Proof.
  intros Hne Hno r. subst r. rewrite (main_with_adapter _ _ Hne).
  destruct (deliver_without_advertisement_error answers Hno startup_calls)
    as (Ha & Hb & _).
  split; [exact Ha|]. split; [|split].
  - intros Hq. destruct (Hb _ Hq) as [Hin|[_ Hn]]; [|now apply Hn].
    unfold startup_calls in Hin. cbn in Hin.
    repeat destruct Hin as [Hin|Hin]; try discriminate. exact Hin.
  - apply not_true_is_false. intros Hex.
    apply existsb_exists in Hex as (ev & Hev & Hcrit).
    destruct (Hb _ Hev) as [Hin|[Hnc _]]; [|congruence].
    unfold startup_calls in Hin. cbn in Hin.
    repeat destruct Hin as [Hin|Hin]; try (subst ev; discriminate).
    exact Hin.
  - exact (deliver_callback_errors answers Hno startup_calls).
Qed.

Lemma only_advertisement_error_stops_witness :
  mainloop
    (self (snd (main (Bluez (Some "/org/bluez/hci0"%string)
                            [(Application, ErrorMessage);
                             (Application, ErrorMessage)]) boot)))
  = Some Running
  /\ List.filter is_CallbackRaised
       (trace (snd (main (Bluez (Some "/org/bluez/hci0"%string)
                               [(Application, ErrorMessage);
                                (Application, ErrorMessage)]) boot)))
     = [CallbackRaised TypeError; CallbackRaised TypeError].
Proof.
  assert (Hno : ~ In (Advertisement, ErrorMessage)
                  [(Application, ErrorMessage); (Application, ErrorMessage)])
    by (intros [H|[H|[]]]; discriminate).
  pose proof (only_advertisement_error_stops "/org/bluez/hci0" _
                ltac:(discriminate) Hno) as H.
  cbv zeta in H. destruct H as (Hrun & _ & _ & Hraised).
  split; [exact Hrun | exact Hraised].
Defined.

(** ** The description descriptor *)

(** X16.  A descriptor reads back the description it was built from.  A
    write is taken only by a writable descriptor, and then the next read
    returns the payload; on a descriptor that is not writable the write
    raises [NotPermitted], and [AttributeError] where the object has no
    [writable] attribute, and the next read still returns the description. *)
Theorem descriptor_write_then_read (description : string)
    (w : option bool) (payload : list Z) (tr : list event) :
  let s := Store (CharacteristicUserDescriptionDescriptor.init description w)
                 tr in
  let r := CharacteristicUserDescriptionDescriptor.WriteValue payload s in
  let after :=
    fst (CharacteristicUserDescriptionDescriptor.ReadValue (snd r)) in
  fst (CharacteristicUserDescriptionDescriptor.ReadValue s)
  = Returns (str description)
  /\ trace (snd r) = tr
  /\ match w with
     | Some true => fst r = Returns tt /\ after = Returns payload
     | Some false =>
       fst r = Raises NotPermittedException
       /\ after = Returns (str description)
     | None =>
       fst r = Raises AttributeError /\ after = Returns (str description)
     end.
Proof.
  destruct w as [[|]|]; repeat split; reflexivity.
Qed.

(** ** Integers in the status *)

(** The three fields of a bit pattern laid out as sign, exponent, fraction. *)
Lemma double_fields (negative : bool) (E m : Z) :
  0 <= E < 2 ^ 11 -> 0 <= m < 2 ^ 52 ->
  let b := (if negative then 2 ^ 63 else 0) + E * 2 ^ 52 + m in
  is_double b
  /\ double_sign b = negative
  /\ double_exponent b = E
  /\ double_fraction b = m.
Proof.
  intros HE Hm b. subst b. split; [|split; [|split]].
  - unfold is_double. destruct negative; lia.
  - unfold double_sign. destruct negative.
    + apply Z.testbit_true; [lia|]. Z.div_mod_to_equations; lia.
    + apply Z.testbit_false; [lia|]. Z.div_mod_to_equations; lia.
  - unfold double_exponent. change 0x7ff with (Z.ones 11).
    rewrite Z.land_ones, Z.shiftr_div_pow2 by lia.
    destruct negative; Z.div_mod_to_equations; lia.
  - unfold double_fraction. change (2 ^ 52 - 1) with (Z.ones 52).
    rewrite Z.land_ones by lia.
    destruct negative; Z.div_mod_to_equations; lia.
Qed.

(** [float(n)] is exact below 2^53 in magnitude. *)
Lemma float_of_int_exact n :
  Z.abs n < 2 ^ 53 ->
  exists b : Z,
    float_of_int n = Returns b
    /\ is_double b
    /\ double_value b = Finite (Qred (inject_Z n)).
Proof.
  intros Hn. unfold float_of_int.
  destruct (Z.eqb_spec (Z.abs n) 0) as [H0|H0].
  { exists 0. assert (n = 0) by lia. subst n.
    split; [reflexivity|]. split; [unfold is_double; lia | reflexivity]. }
  set (a := Z.abs n) in *.
  assert (Ha : 0 < a) by lia.
  set (p := Z.log2 a).
  pose proof (Z.log2_spec a Ha) as Hlog. fold p in Hlog.
  assert (Hp0 : 0 <= p) by apply Z.log2_nonneg.
  assert (Hp : p <= 52).
  { assert (p < 53); [|lia]. apply Z.log2_lt_pow2; assumption. }
  replace (p <=? 52) with true by lia.
  replace (1023 <? p) with false by lia.
  rewrite Z.shiftl_mul_pow2 by lia.
  set (k := 2 ^ (52 - p)).
  assert (Hk : 0 < k) by (apply Z.pow_pos_nonneg; lia).
  assert (Hpk : 2 ^ p * k = 2 ^ 52)
    by (unfold k; rewrite <- Z.pow_add_r by lia; f_equal; lia).
  assert (Hq : 2 ^ 52 <= a * k < 2 ^ 53).
  { rewrite Z.pow_succ_r in Hlog by lia. nia. }
  eexists. split; [reflexivity|].
  destruct (double_fields (n <? 0) (p + 1023) (a * k - 2 ^ 52))
    as (Hd & Hs & He & Hf); [lia | lia |].
  split; [exact Hd|].
  unfold double_value. rewrite Hs, He, Hf.
  replace (p + 1023 =? 2047) with false by lia.
  replace (p + 1023 =? 0) with false by lia.
  f_equal. apply Qred_complete.
  replace (2 ^ 52 + (a * k - 2 ^ 52)) with (a * k) by lia.
  replace (p + 1023 - 1075) with (- (52 - p)) by lia.
  assert (Hval : Qmult (inject_Z (a * k)) (Qpower (2 # 1) (- (52 - p)))
                 == inject_Z a).
  { rewrite inject_Z_mult. unfold k.
    rewrite Qpower_opp.
    change (2 # 1)%Q with (inject_Z 2).
    rewrite <- Zpower_Qpower by lia.
    field. intros Hz.
    assert (0 < 2 ^ (52 - p)) by (apply Z.pow_pos_nonneg; lia).
    unfold Qeq in Hz. cbn in Hz. lia. }
  destruct (Z.ltb_spec n 0).
  - rewrite Hval. unfold a. rewrite Z.abs_neq by lia.
    rewrite inject_Z_opp. ring.
  - rewrite Hval. unfold a. rewrite Z.abs_eq by lia. reflexivity.
Qed.

(** X17.  A status field that is an integer of magnitude below 2^53 is read
    without loss: the floating read returns the 8 bytes of a double that
    denotes exactly that integer, and those bytes unpack to that double. *)
Theorem float_read_integer_field key read (bo : byteorder) (be : backend)
    (s : store Characteristic) (status : gmap string dbus_value) (n : Z) :
  In (key, read) float_characteristics ->
  remote_status be = Returns status ->
  status !! key = Some (Integer n) ->
  Z.abs n < 2 ^ 53 ->
  exists b : Z,
    fst (read bo be s) = Returns (struct_pack_d bo b)
    /\ struct_unpack_d bo (struct_pack_d bo b) = Returns b
    /\ double_value b = Finite (Qred (inject_Z n)).
Proof.
  intros Hin Hs Hk Hn.
  destruct (float_characteristics_inv key read Hin) as (msg & prints & ->).
  destruct (float_of_int_exact n Hn) as (b & Hb & Hd & Hv).
  exists b. split; [|split; [|exact Hv]].
  - exact (proj1 (status_ReadValue_answer bo msg key prints be s status
                    (Integer n) b Hs Hk Hb)).
  - unfold struct_unpack_d, struct_pack_d. rewrite length_int_to_native.
    cbn [Nat.eqb]. rewrite native_to_int_int_to_native. f_equal.
    apply Z.mod_small. exact Hd.
Qed.

Lemma float_read_integer_field_witness :
  exists b : Z,
    fst (HumiditySetpointCharacteristic.ReadValue little answering
           (Store HumiditySetpointCharacteristic.init []))
    = Returns (struct_pack_d little b)
    /\ double_value b = Finite (Qred (inject_Z 60)).
Proof.
  destruct (float_read_integer_field "humidity_setpoint"
              HumiditySetpointCharacteristic.ReadValue little answering
              (Store HumiditySetpointCharacteristic.init [])
              (<[ "light"%string := Double double_42 ]>
               {[ "humidity_setpoint"%string := Integer 60 ]}) 60)
    as (b & Hr & _ & Hv).
  - unfold float_characteristics. do 4 right. left. reflexivity.
  - reflexivity.
  - rewrite lookup_insert_ne by discriminate. apply lookup_singleton_eq.
  - cbn. lia.
  - exists b. split; assumption.
Defined.

(** ** Writes and the backend, whatever the payload *)

(** X18.  A write contacts the backend at most once, and only to submit a
    command: the fan posts to the command URL, the others call [cmd] on the
    remote object; no write ever asks for the status. *)
Theorem write_single_command (bo : byteorder) (be : backend)
    (payload : list Z) :
  (forall s : store Characteristic,
      exists calls : list event,
        backend_calls
          (trace (snd (FanControlCharacteristic.WriteValue be payload s)))
        = backend_calls (trace s) ++ calls
        /\ (calls = []
            \/ exists data : pydict,
                calls = [HttpPost (Gr0GBaseUrl ++ "/status/cmds") data]))
  /\ (forall s : store LightControlCharacteristic.t,
         exists calls : list event,
           backend_calls
             (trace (snd (LightControlCharacteristic.WriteValue
                            be payload s)))
           = backend_calls (trace s) ++ calls
           /\ (calls = [] \/ exists data : pydict, calls = [RpcCmd data]))
  /\ (forall s : store Characteristic,
         exists calls : list event,
           backend_calls
             (trace (snd (TemperatureSetpointCharacteristic.WriteValue
                            bo be payload s)))
           = backend_calls (trace s) ++ calls
           /\ (calls = [] \/ exists data : pydict, calls = [RpcCmd data]))
  /\ (forall s : store Characteristic,
         exists calls : list event,
           backend_calls
             (trace (snd (HumiditySetpointCharacteristic.WriteValue
                            bo be payload s)))
           = backend_calls (trace s) ++ calls
           /\ (calls = [] \/ exists data : pydict, calls = [RpcCmd data])).
Proof.
  unfold FanControlCharacteristic.WriteValue,
    LightControlCharacteristic.WriteValue,
    LightControlCharacteristic.set_lastValue,
    TemperatureSetpointCharacteristic.WriteValue,
    HumiditySetpointCharacteristic.WriteValue.
  py_unfold.
  repeat match goal with |- _ /\ _ => split end; intros s; cbn;
    repeat match goal with
           | |- context [match ?x with _ => _ end] =>
             match x with
             | context [match _ with _ => _ end] => fail 1
             | _ => destruct x; cbn
             end
           end;
    first [ exists []; split; [calls_simpl; reflexivity | left; reflexivity]
          | eexists [_]; split;
            [calls_simpl; reflexivity | right; eexists; reflexivity] ].
Qed.
